(** * FRED data fetcher: a shallow embedding of [src/fred_apis.py]

    The development follows the class [FREDDataFetcher]: the static series
    table and its lookup, the line-pattern reader of Bruno request files,
    the per-series fetch with its pandas cleaning steps, the persister and
    the orchestrating loop.  Python text is modelled by [string] (one
    character per code point below 256), the fetcher object and its
    surroundings by an explicit state, and exceptions by a result type. *)

From Stdlib Require Import List Bool Arith ZArith Lia.
From Stdlib Require Import Ascii String.
From Stdlib Require Import Permutation Sorted.
From Stdlib Require Import Floats.PrimFloat Uint63.
Import ListNotations.

Open Scope string_scope.
Open Scope list_scope.

(* ================================================================== *)
(** ** Python text primitives *)
(* ================================================================== *)

Module Text.

(** Code point of a character. *)
Definition code (c : ascii) : N := N_of_ascii c.

Definition in_range (lo hi : N) (c : ascii) : bool :=
  (N.leb lo (code c) && N.leb (code c) hi)%bool.

(** [str.isspace] / the regex class [\s] on the first 256 code points:
    TAB, LF, VT, FF, CR, the separators 0x1c-0x1f, SPACE, NEL and NBSP. *)
Definition is_space (c : ascii) : bool :=
  (in_range 9 13 c || in_range 28 32 c
   || N.eqb (code c) 133 || N.eqb (code c) 160)%bool.

(** The regex class [\w] for [str] patterns: alphanumeric code points and
    the underscore.  Beyond ASCII this covers the Latin-1 letters, the
    ordinal indicators, the micro sign, superscript digits and the vulgar
    fractions. *)
Definition is_word (c : ascii) : bool :=
  (in_range 48 57 c || in_range 65 90 c || N.eqb (code c) 95
   || in_range 97 122 c
   || N.eqb (code c) 170 || in_range 178 179 c || N.eqb (code c) 181
   || in_range 185 186 c || in_range 188 190 c
   || in_range 192 214 c || in_range 216 246 c || in_range 248 255 c)%bool.

(** [str.lower] on one character. *)
Definition lower_char (c : ascii) : ascii :=
  if (in_range 65 90 c || in_range 192 214 c || in_range 216 222 c)%bool
  then ascii_of_N (code c + 32)
  else c.

Fixpoint smap (f : ascii -> ascii) (s : string) : string :=
  match s with
  | EmptyString => EmptyString
  | String c s' => String (f c) (smap f s')
  end.

(** [s.lower()] *)
Definition lower (s : string) : string := smap lower_char s.

(** [s.lstrip()] *)
Fixpoint lstrip (s : string) : string :=
  match s with
  | EmptyString => EmptyString
  | String c s' => if is_space c then lstrip s' else s
  end.

(** [s.rstrip()] *)
Fixpoint rstrip (s : string) : string :=
  match s with
  | EmptyString => EmptyString
  | String c s' =>
      match rstrip s' with
      | EmptyString => if is_space c then EmptyString else String c EmptyString
      | r => String c r
      end
  end.

(** [s.strip()] *)
Definition strip (s : string) : string := rstrip (lstrip s).

(** Python truthiness of a string. *)
Definition truthy (s : string) : bool :=
  match s with EmptyString => false | _ => true end.

(** Every character of [s] satisfies [p]. *)
Fixpoint all_chars (p : ascii -> bool) (s : string) : bool :=
  match s with
  | EmptyString => true
  | String c s' => (p c && all_chars p s')%bool
  end.

End Text.

(* ================================================================== *)
(** ** A fragment of [re]: leftmost search with greedy backtracking *)
(* ================================================================== *)

Module Re.

(** The patterns of this program all have the shape
    [prefix ( class+ )]: a sequence of literal text, single characters of a
    class and greedy starred classes, followed by one capture group made of
    a greedy, non-empty run of one character class. *)
Inductive atom : Type :=
| Lit (s : string)
| OneOf (p : ascii -> bool)
| Star (p : ascii -> bool).

Record pattern : Type := Pattern {
  prefix : list atom;
  group1 : ascii -> bool
}.

(** Remove a literal from the front of the subject. *)
Fixpoint eat (l s : string) : option string :=
  match l with
  | EmptyString => Some s
  | String a l' =>
      match s with
      | String c s' => if Ascii.eqb a c then eat l' s' else None
      | EmptyString => None
      end
  end.

(** Longest prefix of [s] made of characters of class [p]. *)
Fixpoint run (p : ascii -> bool) (s : string) : string :=
  match s with
  | String c s' => if p c then String c (run p s') else EmptyString
  | EmptyString => EmptyString
  end.

(** The capture group [(class+)] at the end of a pattern. *)
Definition plus (p : ascii -> bool) (s : string) : option string :=
  match run p s with
  | EmptyString => None
  | g => Some g
  end.

(** Match anchored at the start of [s]; the result is group 1.  A starred
    class first takes as many characters as it can and gives them back one
    at a time when the rest of the pattern fails. *)
Fixpoint match_here (atoms : list atom) (g : ascii -> bool) (s : string)
  : option string :=
  match atoms with
  | [] => plus g s
  | Lit l :: rest =>
      match eat l s with
      | Some s' => match_here rest g s'
      | None => None
      end
  | OneOf p :: rest =>
      match s with
      | String c s' => if p c then match_here rest g s' else None
      | EmptyString => None
      end
  | Star p :: rest =>
      (fix star (s : string) : option string :=
         match s with
         | String c s' =>
             if p c then
               match star s' with
               | Some r => Some r
               | None => match_here rest g s
               end
             else match_here rest g s
         | EmptyString => match_here rest g s
         end) s
  end.

(** [re.search(pattern, s)], returning [group(1)] of the leftmost match. *)
Fixpoint search (pat : pattern) (s : string) : option string :=
  match match_here (prefix pat) (group1 pat) s with
  | Some r => Some r
  | None =>
      match s with
      | String _ s' => search pat s'
      | EmptyString => None
      end
  end.

(** The class of [.]: anything but a line feed. *)
Definition dot (c : ascii) : bool := negb (N.eqb (Text.code c) 10).

(** The class [[=:]]. *)
Definition eq_or_colon (c : ascii) : bool :=
  (N.eqb (Text.code c) 61 || N.eqb (Text.code c) 58)%bool.

(** The class [[^&\s]]. *)
Definition not_amp_space (c : ascii) : bool :=
  negb (N.eqb (Text.code c) 38 || Text.is_space c)%bool.

(** [re.sub(class, repl, s)] for a single-character class and a
    single-character replacement. *)
Definition sub_class (p : ascii -> bool) (repl : ascii) (s : string) : string :=
  Text.smap (fun c => if p c then repl else c) s.

End Re.

(* ================================================================== *)
(** ** The series table and its lookup *)
(* ================================================================== *)

(** [self.series_mappings], in the order of the dict literal. *)
Definition series_mappings : list (string * list string) :=
  [ ("CPI data", ["CPIAUCSL"; "CPALTT01USM657N"]);
    ("GDP data", ["GDP"; "GDPC1"]);
    ("UNRATE data", ["UNRATE"]);
    ("Interest Rate data", ["INTDSRUSM193"; "FEDFUNDS"; "DGS10"]);
    ("Consumer Confidence data", ["UMCSENT"]);
    ("Housing Starts data", ["HOUST"]);
    ("Trade Balance data", ["BOPGSTB"]);
    ("Current Account data", ["NETEXP"]);
    ("Government Debt & Budget Deficit data", ["GFDEGDQ188S"; "FYFSGDA188S"]);
    ("PPI data", ["PPIACO"]);
    ("PPI Gold Ore data", ["PCU2122212122"]);
    ("Crude Oil data", ["DCOILWTICO"]);
    ("S&P 500 data", ["SP500"]);
    ("Dow Jones Industrial Average data", ["DJIA"]);
    ("NASDAQ Composite data", ["NASDAQCOM"]);
    ("Currency Conversions data", ["DEXUSEU"; "DEXJPUS"; "DEXUSUK"]) ].

(** [d.get(key)] on a dict kept as an association list with unique keys. *)
Fixpoint dict_get {V : Type} (d : list (string * V)) (key : string) : option V :=
  match d with
  | [] => None
  | (k, v) :: d' => if String.eqb k key then Some v else dict_get d' key
  end.

(** [get_corrected_series_ids]: [self.series_mappings.get(indicator_name, [])]. *)
Definition get_corrected_series_ids (indicator_name : string) : list string :=
  match dict_get series_mappings indicator_name with
  | Some ids => ids
  | None => []
  end.

(* ================================================================== *)
(** ** File names *)
(* ================================================================== *)

(** The class [[^\w\-_]] of the orchestrator's [re.sub]: everything that is
    not a word character, a hyphen or an underscore. *)
Definition unsafe_char (c : ascii) : bool :=
  negb (Text.is_word c || N.eqb (Text.code c) 45 || N.eqb (Text.code c) 95)%bool.

(** [clean_filename = re.sub(r'[^\w\-_]', '_', indicator_name.lower())] *)
Definition clean_filename (indicator_name : string) : string :=
  Re.sub_class unsafe_char "_"%char (Text.lower indicator_name).

(** [f"{filename}.{format}"] *)
Definition file_name (filename format : string) : string :=
  filename ++ "." ++ format.

(** [self.data_dir / name] for a relative [name]. *)
Definition path_join (dir name : string) : string := dir ++ "/" ++ name.

(* ================================================================== *)
(** ** Values of the tabular data *)
(* ================================================================== *)

(** A cell of a [datetime64] column: a time stamp (a count on the time
    line) or the missing value [NaT]. *)
Inductive datetime : Type :=
| NaT
| Timestamp (t : Z).

(** Order of [sort_values] on a date column: ascending, with missing dates
    after every time stamp ([na_position='last']). *)
Definition dt_leb (a b : datetime) : bool :=
  match a, b with
  | _, NaT => true
  | NaT, Timestamp _ => false
  | Timestamp x, Timestamp y => (x <=? y)%Z
  end.

(** [pd.isna] on a [float64] cell: only NaN differs from itself. *)
Definition isna (v : float) : bool := negb (PrimFloat.eqb v v).

(** One record of the upstream [observations] array: two strings. *)
Module Raw.
Record t : Type := Make { date : string; value : string }.
End Raw.

(** A row of the frame after the [date] and [value] columns are converted. *)
Definition cell : Type := (datetime * float)%type.

(** A row of a returned [DataFrame]; [indicator] is the column that only
    the combined frame has. *)
Module Row.
Record t : Type := Make {
  date : datetime;
  value : float;
  series_id : string;
  fetched_at : Z;
  indicator : option string
}.
End Row.

Definition dataframe : Type := list Row.t.

(* ================================================================== *)
(** ** Exceptions, the surroundings and the state *)
(* ================================================================== *)

Inductive exn : Type :=
| OSError                    (* open, read or write failed *)
| ValueError (msg : string)
| RequestException           (* connection error, timeout *)
| HTTPError (status : Z)     (* raised by [raise_for_status] *)
| JSONDecodeError            (* body is not JSON *)
| DateParseError.            (* [pd.to_datetime] rejected the column *)

(** [isinstance(e, requests.exceptions.RequestException)] *)
Definition is_request_exception (e : exn) : bool :=
  match e with
  | RequestException | HTTPError _ | JSONDecodeError => true
  | _ => false
  end.

Inductive result (A : Type) : Type :=
| Ok (a : A)
| Raise (e : exn).
Arguments Ok {A} a.
Arguments Raise {A} e.

(** The query parameters of one request. *)
Module Request.
Record t : Type := Make {
  series_id : string;
  api_key : option string;
  file_type : string;
  observation_start : string;
  observation_end : string
}.
End Request.

(** What [response.json()] gives: an exception, a JSON value without an
    [observations] member, or the observation records. *)
Inductive body : Type :=
| NotJson
| NoObservationsField
| Observations (obs : list Raw.t).

(** What [requests.get] gives: an exception or a response. *)
Inductive http_outcome : Type :=
| ConnectionFailed
| Response (status : Z) (b : body).

(** A [*.bru] file found by [glob]. *)
Module Entry.
Record t : Type := Make { path : string; stem : string }.
End Entry.

(** Everything the program reads from outside, and the pandas functions it
    calls. *)
Record env : Type := Env {
  now : nat -> Z;                                (* k-th [datetime.now()] *)
  strftime_ymd : Z -> string;                    (* [strftime("%Y-%m-%d")] *)
  http_get : nat -> Request.t -> http_outcome;   (* answer to the k-th request *)
  read_text : string -> option string;           (* [open(p).read()], [None]: raises *)
  glob_bru : string -> option (list Entry.t);    (* [None]: no such directory *)
  write_ok : nat -> string -> bool;              (* does the k-th write succeed *)
  to_datetime : list string -> option (list datetime);  (* [None]: raises *)
  to_numeric : string -> float;                  (* [errors='coerce']: NaN on failure *)
  argsort : list datetime -> list nat            (* row order chosen by [sort_values] *)
}.

Inductive format_kind : Type := Csv | Json | Parquet.

(** A file under [data_dir]: the serialisation used and the rows written. *)
Record file : Type := File { kind : format_kind; rows : dataframe }.

(** One constructor per logging call of the module. *)
Inductive log_msg : Type :=
| ParseFailed (file_path : string) (e : exn)
| Fetching (series_id : string)
| NoObservations (series_id : string)
| EmptyDataset (series_id : string)
| Fetched (count : nat) (series_id : string)
| FetchFailed (series_id : string) (e : exn)
| ProcessingFailed (series_id : string) (e : exn)
| Saved (file_path : string)
| SaveFailed (file_path : string) (e : exn)
| DirNotFound (bruno_dir : string)
| FoundFiles (count : nat)
| Processing (stem : string)
| NoSeriesId (indicator : string)
| NoData (indicator : string)
| CreatingCombined
| Completed (count : nat).

(** The fetcher object together with what its methods change around it.
    The log is kept newest first. *)
Record state : Type := State {
  api_key : option string;            (* [self.api_key] *)
  data_dir : string;                  (* [self.data_dir] *)
  clock_reads : nat;                  (* calls of [datetime.now()] so far *)
  requests_sent : list Request.t;     (* calls of [requests.get], newest first *)
  sleeps : list float;                (* calls of [time.sleep], newest first *)
  write_attempts : nat;               (* calls of a [to_*] writer so far *)
  files : list (string * file);       (* path and content of written files *)
  log : list log_msg
}.

(** [FREDDataFetcher(api_key, data_dir)] in fresh surroundings. *)
Definition init (key : option string) (dir : string) : state :=
  State key dir 0 [] [] 0 [] [].

(** ** The monad of the methods: state and exceptions *)

Definition M (A : Type) : Type := state -> result A * state.

Definition ret {A} (a : A) : M A := fun s => (Ok a, s).

Definition bind {A B} (m : M A) (k : A -> M B) : M B :=
  fun s => match m s with
           | (Ok a, s') => k a s'
           | (Raise e, s') => (Raise e, s')
           end.

Definition raise {A} (e : exn) : M A := fun s => (Raise e, s).

(** [try: m  except Exception as e: h e] *)
Definition try_except {A} (m : M A) (h : exn -> M A) : M A :=
  fun s => match m s with
           | (Ok a, s') => (Ok a, s')
           | (Raise e, s') => h e s'
           end.

Notation "x <- m ;; k" := (bind m (fun x => k))
  (at level 61, m at next level, right associativity).
Notation "m ;;; k" := (bind m (fun _ => k))
  (at level 61, right associativity).

Definition gets {A} (f : state -> A) : M A := fun s => (Ok (f s), s).
Definition modify (f : state -> state) : M unit := fun s => (Ok tt, f s).

Definition set_api_key (k : option string) (s : state) : state :=
  State k (data_dir s) (clock_reads s) (requests_sent s) (sleeps s)
        (write_attempts s) (files s) (log s).
Definition set_clock_reads (n : nat) (s : state) : state :=
  State (api_key s) (data_dir s) n (requests_sent s) (sleeps s)
        (write_attempts s) (files s) (log s).
Definition set_requests_sent (l : list Request.t) (s : state) : state :=
  State (api_key s) (data_dir s) (clock_reads s) l (sleeps s)
        (write_attempts s) (files s) (log s).
Definition set_sleeps (l : list float) (s : state) : state :=
  State (api_key s) (data_dir s) (clock_reads s) (requests_sent s) l
        (write_attempts s) (files s) (log s).
Definition set_write_attempts (n : nat) (s : state) : state :=
  State (api_key s) (data_dir s) (clock_reads s) (requests_sent s) (sleeps s)
        n (files s) (log s).
Definition set_files (l : list (string * file)) (s : state) : state :=
  State (api_key s) (data_dir s) (clock_reads s) (requests_sent s) (sleeps s)
        (write_attempts s) l (log s).
Definition set_log (l : list log_msg) (s : state) : state :=
  State (api_key s) (data_dir s) (clock_reads s) (requests_sent s) (sleeps s)
        (write_attempts s) (files s) l.

(** [logger.info / warning / error] *)
Definition logger (m : log_msg) : M unit :=
  modify (fun s => set_log (m :: log s) s).

(** Python truthiness of [self.api_key]. *)
Definition key_truthy (k : option string) : bool :=
  match k with
  | None => false
  | Some s => Text.truthy s
  end.

(* ================================================================== *)
(** ** Reading a Bruno request file *)
(* ================================================================== *)

Module Config.
Record t : Type := Make {
  name : string;
  url : string;
  series_id : string;
  api_key : string;
  params : list (string * string)
}.
Definition empty : t := Make "" "" "" "" [].
Definition with_name (v : string) (c : t) : t :=
  Make v (url c) (series_id c) (api_key c) (params c).
Definition with_url (v : string) (c : t) : t :=
  Make (name c) v (series_id c) (api_key c) (params c).
Definition with_series_id (v : string) (c : t) : t :=
  Make (name c) (url c) v (api_key c) (params c).
Definition with_api_key (v : string) (c : t) : t :=
  Make (name c) (url c) (series_id c) v (params c).
End Config.

(** [r'name:\s*(.+)'] *)
Definition name_re : Re.pattern :=
  Re.Pattern [Re.Lit "name:"; Re.Star Text.is_space] Re.dot.
(** [r'url:\s*(.+)'] *)
Definition url_re : Re.pattern :=
  Re.Pattern [Re.Lit "url:"; Re.Star Text.is_space] Re.dot.
(** [r'api_key[=:]([^&\s]+)'] *)
Definition api_key_re : Re.pattern :=
  Re.Pattern [Re.Lit "api_key"; Re.OneOf Re.eq_or_colon] Re.not_amp_space.
(** [r'series_id[=:]([^&\s]+)'] *)
Definition series_id_re : Re.pattern :=
  Re.Pattern [Re.Lit "series_id"; Re.OneOf Re.eq_or_colon] Re.not_amp_space.

Section Program.

Variable E : env.

(** [with open(file_path, 'r') as file: content = file.read()] *)
Definition open_read (file_path : string) : M string :=
  match read_text E file_path with
  | Some content => ret content
  | None => raise OSError
  end.

(** [parse_bruno_file].  The only statement of the [try] block that can
    raise is the read, which comes before every assignment to [config]; the
    handler therefore returns [config] as it was created. *)
Definition parse_bruno_file (file_path : string) : M Config.t :=
  let config := Config.empty in
  try_except
    (content <- open_read file_path ;;
     let config :=
       match Re.search name_re content with
       | Some g => Config.with_name (Text.strip g) config
       | None => config
       end in
     let config :=
       match Re.search url_re content with
       | Some g => Config.with_url (Text.strip g) config
       | None => config
       end in
     config <-
       match Re.search api_key_re content with
       | Some g =>
           let config := Config.with_api_key (Text.strip g) config in
           self_key <- gets api_key ;;
           (if negb (key_truthy self_key)
            then modify (set_api_key (Some (Config.api_key config)))
            else ret tt) ;;;
           ret config
       | None => ret config
       end ;;
     let config :=
       match Re.search series_id_re content with
       | Some g => Config.with_series_id (Text.strip g) config
       | None => config
       end in
     ret config)
    (fun e => logger (ParseFailed file_path e) ;;; ret config).

(* ------------------------------------------------------------------ *)
(** *** Fetching one series *)

(** [datetime.now()] *)
Definition read_clock : M Z :=
  fun s => (Ok (now E (clock_reads s)), set_clock_reads (S (clock_reads s)) s).

(** [requests.get(self.base_url, params=params)] *)
Definition requests_get (params : Request.t) : M (Z * body) :=
  fun s =>
    let s' := set_requests_sent (params :: requests_sent s) s in
    match http_get E (List.length (requests_sent s)) params with
    | ConnectionFailed => (Raise RequestException, s')
    | Response status b => (Ok (status, b), s')
    end.

(** [response.raise_for_status()] *)
Definition raise_for_status (status : Z) : M unit :=
  if ((400 <=? status) && (status <? 600))%Z
  then raise (HTTPError status)
  else ret tt.

(** [data = response.json()], read as the answer to
    ['observations' in data] together with [data['observations']]. *)
Definition response_json (b : body) : M (option (list Raw.t)) :=
  match b with
  | NotJson => raise JSONDecodeError
  | NoObservationsField => ret None
  | Observations obs => ret (Some obs)
  end.

(** [pd.to_datetime(df['date'])] *)
Definition pd_to_datetime (col : list string) : M (list datetime) :=
  match to_datetime E col with
  | Some d => ret d
  | None => raise DateParseError
  end.

(** [df.dropna(subset=['value'])] *)
Definition dropna (df : list cell) : list cell :=
  filter (fun c => negb (isna (snd c))) df.

(** Rows of [df] at the positions [idx], in that order. *)
Definition take_rows {A} (idx : list nat) (df : list A) : list A :=
  flat_map (fun i => match nth_error df i with
                     | Some r => [r]
                     | None => []
                     end) idx.

(** [df.sort_values('date')] *)
Definition sort_values (df : list cell) : list cell :=
  take_rows (argsort E (map fst df)) df.

(** [df['series_id'] = series_id; df['fetched_at'] = t] *)
Definition stamp (series_id : string) (t : Z) (df : list cell) : dataframe :=
  map (fun c => Row.Make (fst c) (snd c) series_id t None) df.

(** The cleaning steps between the emptiness test and the stamping. *)
Definition clean (dates : list datetime) (obs : list Raw.t) : list cell :=
  sort_values (dropna (combine dates (map (fun o => to_numeric E (Raw.value o)) obs))).

(** [if not end_date] *)
Definition end_date_given (end_date : option string) : bool :=
  match end_date with
  | None => false
  | Some d => Text.truthy d
  end.

(** [fetch_series_data]; [None] is the failure value. *)
Definition fetch_series_data (series_id start_date : string)
    (end_date : option string) : M (option dataframe) :=
  end_date <-
    (if end_date_given end_date
     then ret (match end_date with Some d => d | None => "" end)
     else (t <- read_clock ;; ret (strftime_ymd E t))) ;;
  key <- gets api_key ;;
  let params := Request.Make series_id key "json" start_date end_date in
  try_except
    (logger (Fetching series_id) ;;;
     response <- requests_get params ;;
     raise_for_status (fst response) ;;;
     data <- response_json (snd response) ;;
     match data with
     | None => logger (NoObservations series_id) ;;; ret None
     | Some observations =>
         match observations with
         | [] => logger (EmptyDataset series_id) ;;; ret None
         | _ :: _ =>
             dates <- pd_to_datetime (map Raw.date observations) ;;
             let df := clean dates observations in
             t <- read_clock ;;
             let df := stamp series_id t df in
             logger (Fetched (List.length df) series_id) ;;;
             ret (Some df)
         end
     end)
    (fun e =>
       if is_request_exception e
       then logger (FetchFailed series_id e) ;;; ret None
       else logger (ProcessingFailed series_id e) ;;; ret None).

(* ------------------------------------------------------------------ *)
(** *** Saving a frame *)

(** [d[key] = v] on an insertion-ordered dict. *)
Fixpoint dict_set {V : Type} (d : list (string * V)) (key : string) (v : V)
  : list (string * V) :=
  match d with
  | [] => [(key, v)]
  | (k, w) :: d' =>
      if String.eqb k key then (k, v) :: d' else (k, w) :: dict_set d' key v
  end.

(** [data.to_csv / to_json / to_parquet (file_path)]: the file is replaced
    when the write succeeds, and an [OSError] is raised otherwise. *)
Definition write_file (k : format_kind) (data : dataframe) (file_path : string)
  : M unit :=
  fun s =>
    let s' := set_write_attempts (S (write_attempts s)) s in
    if write_ok E (write_attempts s) file_path
    then (Ok tt, set_files (dict_set (files s') file_path (File k data)) s')
    else (Raise OSError, s').

(** [save_data] *)
Definition save_data (data : dataframe) (filename format : string) : M unit :=
  dir <- gets data_dir ;;
  let file_path := path_join dir (file_name filename format) in
  try_except
    ((if String.eqb format "csv" then write_file Csv data file_path
      else if String.eqb format "json" then write_file Json data file_path
      else if String.eqb format "parquet" then write_file Parquet data file_path
      else raise (ValueError ("Unsupported format: " ++ format))) ;;;
     logger (Saved file_path))
    (fun e => logger (SaveFailed file_path e)).

(* ------------------------------------------------------------------ *)
(** *** The orchestrator *)

(** [time.sleep(delay)]; a negative or NaN length is a [ValueError]. *)
Definition sleep (delay : float) : M unit :=
  if PrimFloat.leb 0 delay
  then modify (fun s => set_sleeps (delay :: sleeps s) s)
  else raise (ValueError "sleep length must be non-negative").

(** The loop [for series_id in series_ids]. *)
Fixpoint fetch_each (series_ids : list string) (start_date : string)
    (delay : float) (indicator_data : list dataframe) : M (list dataframe) :=
  match series_ids with
  | [] => ret indicator_data
  | series_id :: rest =>
      df <- fetch_series_data series_id start_date None ;;
      let indicator_data :=
        match df with
        | Some d => indicator_data ++ [d]
        | None => indicator_data
        end in
      sleep delay ;;;
      fetch_each rest start_date delay indicator_data
  end.

(** [config['name'] or bruno_file.stem] *)
Definition indicator_name_of (config : Config.t) (bruno_file : Entry.t) : string :=
  if Text.truthy (Config.name config) then Config.name config
  else Entry.stem bruno_file.

(** The series to fetch for an indicator; [None] is the [continue] branch. *)
Definition resolve_series (indicator_name : string) (config : Config.t)
  : option (list string) :=
  match get_corrected_series_ids indicator_name with
  | [] => if Text.truthy (Config.series_id config)
          then Some [Config.series_id config]
          else None
  | ids => Some ids
  end.

(** [indicator_data[0]] for one frame, [pd.concat(..., ignore_index=True)]
    for several. *)
Definition combine_frames (indicator_data : list dataframe) : dataframe :=
  match indicator_data with
  | [d] => d
  | _ => List.concat indicator_data
  end.

(** One turn of the loop [for bruno_file in bruno_files]. *)
Definition process_file (bruno_file : Entry.t) (start_date format : string)
    (delay : float) (all_data : list (string * dataframe))
  : M (list (string * dataframe)) :=
  logger (Processing (Entry.stem bruno_file ++ ".bru")) ;;;
  config <- parse_bruno_file (Entry.path bruno_file) ;;
  let indicator_name := indicator_name_of config bruno_file in
  match resolve_series indicator_name config with
  | None => logger (NoSeriesId indicator_name) ;;; ret all_data
  | Some series_ids =>
      indicator_data <- fetch_each series_ids start_date delay [] ;;
      match indicator_data with
      | [] => logger (NoData indicator_name) ;;; ret all_data
      | _ :: _ =>
          let combined_df := combine_frames indicator_data in
          let all_data := dict_set all_data indicator_name combined_df in
          save_data combined_df (clean_filename indicator_name) format ;;;
          ret all_data
      end
  end.

Fixpoint process_files (bruno_files : list Entry.t) (start_date format : string)
    (delay : float) (all_data : list (string * dataframe))
  : M (list (string * dataframe)) :=
  match bruno_files with
  | [] => ret all_data
  | bruno_file :: rest =>
      all_data <- process_file bruno_file start_date format delay all_data ;;
      process_files rest start_date format delay all_data
  end.

(** [df_copy = df.copy(); df_copy['indicator'] = indicator] *)
Definition tag_indicator (indicator : string) (df : dataframe) : dataframe :=
  map (fun r => Row.Make (Row.date r) (Row.value r) (Row.series_id r)
                         (Row.fetched_at r) (Some indicator)) df.

(** [fetch_all_indicators] *)
Definition fetch_all_indicators (bruno_dir start_date format : string)
    (delay : float) : M (list (string * dataframe)) :=
  match glob_bru E bruno_dir with
  | None => logger (DirNotFound bruno_dir) ;;; ret []
  | Some bruno_files =>
      logger (FoundFiles (List.length bruno_files)) ;;;
      all_data <- process_files bruno_files start_date format delay [] ;;
      (match all_data with
       | [] => ret tt
       | _ :: _ =>
           logger CreatingCombined ;;;
           let combined_data :=
             map (fun kv => tag_indicator (fst kv) (snd kv)) all_data in
           match combined_data with
           | [] => ret tt
           | _ :: _ =>
               save_data (List.concat combined_data) "all_economic_indicators" format
           end
       end) ;;;
      logger (Completed (List.length all_data)) ;;;
      ret all_data
  end.

End Program.

(* ================================================================== *)
(** ** What is assumed of pandas *)
(* ================================================================== *)

Definition dt_le (a b : datetime) : Prop := dt_leb a b = true.

(** [sort_values] with its default [kind='quicksort'] promises an ordering
    of the rows by key, missing keys last; [to_datetime] keeps the length
    of its column.  Nothing is promised about rows with equal keys. *)
Record pandas_contract (E : env) : Prop := {
  argsort_perm :
    forall keys, Permutation (argsort E keys) (seq 0 (List.length keys));
  argsort_sorted :
    forall keys, Sorted dt_le (take_rows (argsort E keys) keys);
  to_datetime_length :
    forall col dates,
      to_datetime E col = Some dates -> List.length dates = List.length col
}.

(** Paths given to [save_data] so far, newest first, as the log tells. *)
Fixpoint saves_of (l : list log_msg) : list string :=
  match l with
  | [] => []
  | Saved p :: l' => p :: saves_of l'
  | SaveFailed p _ :: l' => p :: saves_of l'
  | _ :: l' => saves_of l'
  end.

Definition saves (s : state) : list string := saves_of (log s).

(** A frame fit to be persisted as far as the cleaning goes: no row has a
    missing value. *)
Definition value_present (r : Row.t) : Prop := isna (Row.value r) = false.

(** A row as the orchestrator persists it: the value is there, and the
    series identifier is not the empty text. *)
Definition attributed (r : Row.t) : Prop :=
  value_present r /\ Text.truthy (Row.series_id r) = true.

(* ================================================================== *)
(** ** Concrete surroundings for the examples *)
(* ================================================================== *)

Module Demo.

Definition digit (c : ascii) : option Z :=
  if Text.in_range 48 57 c then Some (Z.of_N (Text.code c) - 48)%Z else None.

(** Value of a non-empty string of decimal digits. *)
Fixpoint number_from (acc : Z) (s : string) : option Z :=
  match s with
  | EmptyString => Some acc
  | String c s' =>
      match digit c with
      | Some d => number_from (acc * 10 + d)%Z s'
      | None => None
      end
  end.

Definition number (s : string) : option Z :=
  match s with
  | EmptyString => None
  | _ => number_from 0 s
  end.

(** Days between 1970-01-01 and the given civil date. *)
Definition days_from_civil (y m d : Z) : Z :=
  let y' := (if m <=? 2 then y - 1 else y)%Z in
  let era := (y' / 400)%Z in
  let yoe := (y' - era * 400)%Z in
  let doy := ((153 * (if m <=? 2 then m + 9 else m - 3) + 2) / 5 + d - 1)%Z in
  let doe := (yoe * 365 + yoe / 4 - yoe / 100 + doy)%Z in
  (era * 146097 + doe - 719468)%Z.

Definition ns_per_day : Z := 86400000000000.

(** Reading of one date cell, as [pd.to_datetime] reads these texts: the
    empty text is the missing date [NaT], a text [YYYY-MM-DD] is that day
    at midnight.  Other texts are rejected here. *)
Definition read_date (s : string) : option datetime :=
  match s with
  | EmptyString => Some NaT
  | _ =>
      if (Nat.eqb (String.length s) 10
          && String.eqb (substring 4 1 s) "-"
          && String.eqb (substring 7 1 s) "-")%bool
      then
        match number (substring 0 4 s), number (substring 5 2 s),
              number (substring 8 2 s) with
        | Some y, Some m, Some d =>
            if ((1 <=? m) && (m <=? 12) && (1 <=? d) && (d <=? 31))%bool%Z
            then Some (Timestamp (days_from_civil y m d * ns_per_day))
            else None
        | _, _, _ => None
        end
      else None
  end.

Fixpoint read_dates (col : list string) : option (list datetime) :=
  match col with
  | [] => Some []
  | s :: col' =>
      match read_date s, read_dates col' with
      | Some d, Some ds => Some (d :: ds)
      | _, _ => None
      end
  end.

(** Position of the first full stop of [s], if any. *)
Fixpoint find_point (s : string) : option nat :=
  match s with
  | EmptyString => None
  | String c s' =>
      if N.eqb (Text.code c) 46 then Some 0
      else option_map S (find_point s')
  end.

Definition float_of_Z (z : Z) : float := PrimFloat.of_uint63 (Uint63.of_Z z).

(** Reading of one value cell, as [pd.to_numeric(errors='coerce')] reads
    these texts: unsigned decimals such as [12] and [3.25] are their
    nearest float, and a text that is no number, such as the [.] the API
    sends for a missing figure, is coerced to NaN. *)
Definition read_value (s : string) : float :=
  match find_point s with
  | None =>
      match number s with
      | Some n => float_of_Z n
      | None => nan
      end
  | Some i =>
      let frac := substring (S i) (String.length s - S i) s in
      match number (substring 0 i s), number frac with
      | Some n, Some f =>
          let scale := (10 ^ Z.of_nat (String.length frac))%Z in
          PrimFloat.div (float_of_Z (n * scale + f)) (float_of_Z scale)
      | _, _ => nan
      end
  end.

(** Insertion sort by a boolean order. *)
Fixpoint insert_by {A} (leb : A -> A -> bool) (x : A) (l : list A) : list A :=
  match l with
  | [] => [x]
  | y :: l' => if leb x y then x :: l else y :: insert_by leb x l'
  end.

Definition isort_by {A} (leb : A -> A -> bool) (l : list A) : list A :=
  fold_right (insert_by leb) [] l.

Definition dt_ltb (a b : datetime) : bool := negb (dt_leb b a).

(** Keys ascending, equal keys by ascending position. *)
Definition by_key_then_position (a b : datetime * nat) : bool :=
  (dt_ltb (fst a) (fst b) || (dt_leb (fst a) (fst b) && Nat.leb (snd a) (snd b)))%bool.


Definition argsort_with (leb : datetime * nat -> datetime * nat -> bool)
    (keys : list datetime) : list nat :=
  map snd (isort_by leb (combine keys (seq 0 (List.length keys)))).

(** Two orderings that [sort_values] may produce. *)
Definition argsort_keeping_ties : list datetime -> list nat :=
  argsort_with by_key_then_position.

Definition bru (lines : list string) : string :=
  String.concat (String "010" EmptyString) lines.

(** One request file per example indicator. *)
Definition unrate_bru : string :=
  bru ["meta {"; "  name: UNRATE data"; "}";
       "get {";
       "  url: https://api.stlouisfed.org/fred/series/observations?series_id=UNRATE&api_key=abc123&file_type=json";
       "}"].

Definition payroll_bru : string :=
  bru ["meta {"; "  name: Non-Farm data"; "}";
       "get {";
       "  url: https://api.stlouisfed.org/fred/series/observations?series_id=PAYEMS&api_key=zzz999&file_type=json";
       "}"].

Definition entries : list Entry.t :=
  [Entry.Make "api/Economic Data/unrate.bru" "unrate";
   Entry.Make "api/Economic Data/payroll.bru" "payroll"].

Definition read (p : string) : option string :=
  if String.eqb p "api/Economic Data/unrate.bru" then Some unrate_bru
  else if String.eqb p "api/Economic Data/payroll.bru" then Some payroll_bru
  else None.

Definition glob (d : string) : option (list Entry.t) :=
  if String.eqb d "api/Economic Data" then Some entries else None.

(** The answers of the statistics API in the examples. *)
Definition answers (obs_unrate obs_payems : list Raw.t) (k : nat)
    (r : Request.t) : http_outcome :=
  if String.eqb (Request.series_id r) "UNRATE" then Response 200 (Observations obs_unrate)
  else if String.eqb (Request.series_id r) "PAYEMS" then Response 200 (Observations obs_payems)
  else Response 400 NoObservationsField.

Definition make (sort : list datetime -> list nat)
    (obs_unrate obs_payems : list Raw.t) : env :=
  Env (fun k => 1700000000 + Z.of_nat k)%Z
      (fun _ => "2023-11-14")
      (answers obs_unrate obs_payems)
      read glob
      (fun _ _ => true)
      read_dates read_value sort.

Definition three_months : list Raw.t :=
  [Raw.Make "2020-03-01" "4.4"; Raw.Make "2020-01-01" "3.5";
   Raw.Make "2020-02-01" "3.5"].

(** Three months out of order for UNRATE, nothing for PAYEMS. *)
Definition plain : env := make argsort_keeping_ties three_months [].



(** A PAYEMS row whose date text is empty. *)
Definition undated : env :=
  make argsort_keeping_ties three_months [Raw.Make "" "1.5"].

(** A fetcher built without a key, saving under [data]. *)
Definition fresh : state := init None "data".

(** The frame [plain] yields for UNRATE, and the mapping of its run. *)
Definition jan_2020 : datetime := Timestamp 1577836800000000000.
Definition feb_2020 : datetime := Timestamp 1580515200000000000.
Definition mar_2020 : datetime := Timestamp 1583020800000000000.

Definition unrate_frame : dataframe :=
  [Row.Make jan_2020 (read_value "3.5") "UNRATE" 1700000001 None;
   Row.Make feb_2020 (read_value "3.5") "UNRATE" 1700000001 None;
   Row.Make mar_2020 (read_value "4.4") "UNRATE" 1700000001 None].

Definition plain_mapping : list (string * dataframe) :=
  [("UNRATE data", unrate_frame)].

Definition run (E : env) (format : string)
  : result (list (string * dataframe)) * state :=
  fetch_all_indicators E "api/Economic Data" "2020-01-01" format 0.5%float fresh.

End Demo.

(** The character that [clean_filename] puts in place of [c]. *)
Definition clean_char (c : ascii) : ascii :=
  let c' := Text.lower_char c in
  if (Text.is_word c' || Ascii.eqb c' "-")%bool then c' else "_"%char.

(** The base name as the specification words it: every non-word character
    of the lower-cased name becomes an underscore. *)
Definition spec_base_name (indicator_name : string) : string :=
  Re.sub_class (fun c => negb (Text.is_word c)) "_"%char
               (Text.lower indicator_name).

(** The path under which the orchestrator saves an indicator. *)
Definition indicator_path (dir indicator_name format : string) : string :=
  path_join dir (file_name (clean_filename indicator_name) format).

(** The path of the combined file. *)
Definition combined_path (dir format : string) : string :=
  path_join dir (file_name "all_economic_indicators" format).

(** The field a pattern gives: the stripped capture, or the empty text. *)
Definition field_of (pat : Re.pattern) (content : string) : string :=
  match Re.search pat content with
  | Some g => Text.strip g
  | None => ""
  end.

(** The end date [fetch_series_data] sends, and the number of clock
    readings made once it is known. *)
Definition effective_end (E : env) (s : state) (end_date : option string) : string :=
  if end_date_given end_date
  then match end_date with Some d => d | None => "" end
  else strftime_ymd E (now E (clock_reads s)).

Definition reads_after_end (s : state) (end_date : option string) : nat :=
  if end_date_given end_date then clock_reads s else S (clock_reads s).

(** The request [fetch_series_data] sends from state [s]. *)
Definition request_for (E : env) (s : state) (series_id start_date : string)
    (end_date : option string) : Request.t :=
  Request.Make series_id (api_key s) "json" start_date
               (effective_end E s end_date).


(** The first [api_key] token among the files, in enumeration order. *)
Fixpoint first_token (E : env) (paths : list string) : option string :=
  match paths with
  | [] => None
  | p :: rest =>
      match read_text E p with
      | Some content =>
          match Re.search api_key_re content with
          | Some g => Some g
          | None => first_token E rest
          end
      | None => first_token E rest
      end
  end.

(** Successive calls of [parse_bruno_file], as the orchestrator's loop
    makes them. *)
Fixpoint parse_each (E : env) (paths : list string) : M (list Config.t) :=
  match paths with
  | [] => ret []
  | p :: rest =>
      c <- parse_bruno_file E p ;;
      cs <- parse_each E rest ;;
      ret (c :: cs)
  end.

(** [raise_for_status] raises on these status codes. *)
Definition error_status (status : Z) : bool :=
  ((400 <=? status) && (status <? 600))%Z.

(** The value [fetch_series_data] returns from state [s]. *)
Definition fetch_value (E : env) (s : state) (series_id start_date : string)
    (end_date : option string) : option dataframe :=
  match http_get E (List.length (requests_sent s))
                 (request_for E s series_id start_date end_date) with
  | ConnectionFailed => None
  | Response status b =>
      if error_status status then None
      else
        match b with
        | NotJson => None
        | NoObservationsField => None
        | Observations [] => None
        | Observations obs =>
            match to_datetime E (map Raw.date obs) with
            | None => None
            | Some dates =>
                Some (stamp series_id (now E (reads_after_end s end_date))
                            (clean E dates obs))
            end
        end
  end.

(** The frame as it is before [sort_values]: converted, with the rows of
    missing value dropped, in the order of the input. *)
Definition cleaned_unsorted (E : env) (dates : list datetime) (obs : list Raw.t)
  : list cell :=
  dropna (combine dates (map (fun o => to_numeric E (Raw.value o)) obs)).

(** The writer [save_data] selects for a format string, if any. *)
Definition supported (format : string) : option format_kind :=
  if String.eqb format "csv" then Some Csv
  else if String.eqb format "json" then Some Json
  else if String.eqb format "parquet" then Some Parquet
  else None.

(** The record [parse_bruno_file] returns for a path. *)
Definition config_of (E : env) (file_path : string) : Config.t :=
  match read_text E file_path with
  | None => Config.empty
  | Some content =>
      Config.Make (field_of name_re content) (field_of url_re content)
                  (field_of series_id_re content)
                  (field_of api_key_re content) []
  end.

(** The display name the orchestrator uses for a request file. *)
Definition indicator_of (E : env) (bruno_file : Entry.t) : string :=
  indicator_name_of (config_of E (Entry.path bruno_file)) bruno_file.

(** Every write succeeds and the format has a writer. *)
Definition writable (E : env) (format : string) : Prop :=
  supported format <> None /\ forall n p, write_ok E n p = true.

(** From [s] to [s'] the paths [new] were given to [save_data] (newest
    first) and nothing else touched the files: a file of [s'] is a file of
    [s] or was saved, with every row [attributed]; no file disappears;
    and when every write succeeds each saved path is a file of [s']. *)
Definition grows (E : env) (format : string) (s s' : state)
    (new : list string) : Prop :=
  data_dir s' = data_dir s
  /\ saves s' = new ++ saves s
  /\ (forall p f, In (p, f) (files s') ->
        In (p, f) (files s) \/ (In p new /\ Forall attributed (rows f)))
  /\ (forall p, In p (map fst (files s)) -> In p (map fst (files s')))
  /\ (writable E format -> forall p, In p new -> In p (map fst (files s'))).

(** The paths saved for a list of indicator names, newest first. *)
Definition indicator_saves (dir format : string) (names : list string)
  : list string :=
  rev (map (fun n => indicator_path dir n format) names).

(** The save of the combined frame, made when the mapping is not empty. *)
Definition combined_saves {V} (dir format : string)
    (all_data : list (string * V)) : list string :=
  match all_data with
  | [] => []
  | _ :: _ => [combined_path dir format]
  end.

(** Every frame of the mapping holds [attributed] rows only. *)
Definition frames_ok (all_data : list (string * dataframe)) : Prop :=
  Forall (fun kv => Forall attributed (snd kv)) all_data.

(** The key after the files at [paths] were parsed in order, starting
    from the key [k]. *)
Definition key_after (E : env) (paths : list string) (k : option string)
  : option string :=
  if key_truthy k then k
  else match first_token E paths with
       | Some g => Some g
       | None => k
       end.

(** From [s] to [s'] the requests [reqs] were sent (newest first), each
    followed by one sleep of [delay], and each asking for the observations
    from [start_date] on, as JSON. *)
Definition traffic (start_date : string) (delay : float) (s s' : state)
    (reqs : list Request.t) : Prop :=
  requests_sent s' = reqs ++ requests_sent s
  /\ sleeps s' = repeat delay (List.length reqs) ++ sleeps s
  /\ Forall (fun q => Request.observation_start q = start_date
                      /\ Request.file_type q = "json") reqs.

(** The exception of [time.sleep] on a negative or NaN length. *)
Definition bad_sleep : exn := ValueError "sleep length must be non-negative".

(** Characters that cannot leave the data directory or split a file name:
    no path separator, no full stop, no white space. *)
Definition plain_char (c : ascii) : bool :=
  (negb (Ascii.eqb c "/") && negb (Ascii.eqb c "\") && negb (Ascii.eqb c ".")
   && negb (Text.is_space c))%bool.

(** The values that survive [dropna], counted on the raw observations. *)
Definition coercible (E : env) (o : Raw.t) : bool :=
  negb (isna (to_numeric E (Raw.value o))).

(** The line [fetch_series_data] logs after [Fetching], by the answer it
    got. *)
Definition outcome_line (E : env) (series_id : string) (o : http_outcome)
  : log_msg :=
  match o with
  | ConnectionFailed => FetchFailed series_id RequestException
  | Response status b =>
      if error_status status then FetchFailed series_id (HTTPError status)
      else
        match b with
        | NotJson => FetchFailed series_id JSONDecodeError
        | NoObservationsField => NoObservations series_id
        | Observations [] => EmptyDataset series_id
        | Observations obs =>
            match to_datetime E (map Raw.date obs) with
            | None => ProcessingFailed series_id DateParseError
            | Some dates =>
                Fetched (List.length (clean E dates obs)) series_id
            end
        end
  end.


(* ================================================================== *)
(** * Properties *)
(* ================================================================== *)

(** ** Text and patterns *)

Lemma all_chars_weaken (p q : ascii -> bool) (s : string) :
  (forall c, p c = true -> q c = true) ->
  Text.all_chars p s = true -> Text.all_chars q s = true.
Proof.
  intros Hpq; induction s as [|c s IH]; simpl; auto.
  intros H; apply andb_true_iff in H as [Hc Hs].
  rewrite (Hpq _ Hc), (IH Hs); reflexivity.
Qed.

Lemma rstrip_no_space (s : string) :
  Text.all_chars (fun c => negb (Text.is_space c)) s = true ->
  Text.rstrip s = s.
Proof.
  induction s as [|c s IH]; simpl; auto.
  intros H; apply andb_true_iff in H as [Hc Hs].
  rewrite (IH Hs).
  destruct s; [|reflexivity].
  apply negb_true_iff in Hc; rewrite Hc; reflexivity.
Qed.

Lemma lstrip_no_space (s : string) :
  Text.all_chars (fun c => negb (Text.is_space c)) s = true ->
  Text.lstrip s = s.
Proof.
  destruct s as [|c s]; simpl; auto.
  intros H; apply andb_true_iff in H as [Hc _].
  apply negb_true_iff in Hc; rewrite Hc; reflexivity.
Qed.

Lemma strip_no_space (s : string) :
  Text.all_chars (fun c => negb (Text.is_space c)) s = true ->
  Text.strip s = s.
Proof.
  intros H; unfold Text.strip.
  rewrite (lstrip_no_space _ H); apply rstrip_no_space, H.
Qed.

Lemma run_all_chars (p : ascii -> bool) (s : string) :
  Text.all_chars p (Re.run p s) = true.
Proof.
  induction s as [|c s IH]; simpl; auto.
  destruct (p c) eqn:Hc; simpl; auto.
  rewrite Hc, IH; reflexivity.
Qed.

Lemma plus_group (p : ascii -> bool) (s g : string) :
  Re.plus p s = Some g -> Text.truthy g = true /\ Text.all_chars p g = true.
Proof.
  unfold Re.plus; intros H.
  pose proof (run_all_chars p s) as Hall.
  destruct (Re.run p s) eqn:Hr; [discriminate|].
  injection H as <-; split; [reflexivity | exact Hall].
Qed.

Lemma match_here_group (atoms : list Re.atom) (p : ascii -> bool) :
  forall s g, Re.match_here atoms p s = Some g ->
              Text.truthy g = true /\ Text.all_chars p g = true.
Proof.
  induction atoms as [|a rest IH]; intros s g H; simpl in H.
  - eapply plus_group; eauto.
  - destruct a as [l|q|q].
    + destruct (Re.eat l s); [eauto | discriminate].
    + destruct s as [|c s']; [discriminate|].
      destruct (q c); [eauto | discriminate].
    + revert g H; induction s as [|c s' IHs]; intros g H; [eauto|].
      destruct (q c); [|eauto].
      match type of H with
      | match ?m with _ => _ end = _ => destruct m eqn:Hm
      end; [|eauto].
      injection H as <-; apply IHs; reflexivity.
Qed.

(** A match of [search] captures a non-empty run of the group's class. *)
Lemma search_group (pat : Re.pattern) :
  forall s g, Re.search pat s = Some g ->
              Text.truthy g = true /\ Text.all_chars (Re.group1 pat) g = true.
Proof.
  induction s as [|c s IH]; intros g H; simpl in H.
  - destruct (Re.match_here _ _ _) eqn:Hm; [|discriminate].
    injection H as <-; eapply match_here_group; eauto.
  - destruct (Re.match_here _ _ _) eqn:Hm; [|eauto].
    injection H as <-; eapply match_here_group; eauto.
Qed.

(** The token captured by [[^&\s]+] is unchanged by [strip] and truthy. *)
Lemma token_strip (pat : Re.pattern) (s g : string) :
  Re.group1 pat = Re.not_amp_space ->
  Re.search pat s = Some g ->
  Text.strip g = g /\ Text.truthy g = true.
Proof.
  intros Hg H; apply search_group in H as [Ht Hall]; split; auto.
  apply strip_no_space; rewrite Hg in Hall.
  revert Hall; apply all_chars_weaken.
  intros c Hc; unfold Re.not_amp_space in Hc.
  apply negb_true_iff, orb_false_iff in Hc as [_ Hc].
  rewrite Hc; reflexivity.
Qed.

(** ** The series table *)

Lemma dict_get_absent {V} (d : list (string * V)) (key : string) :
  ~ In key (map fst d) -> dict_get d key = None.
Proof.
  induction d as [|[k v] d IH]; simpl; auto.
  intros H; destruct (String.eqb_spec k key) as [->|Hne].
  - exfalso; apply H; left; reflexivity.
  - apply IH; intros Hin; apply H; right; exact Hin.
Qed.

(** C9.  [get_corrected_series_ids] is a total lookup in the fixed table:
    ["GDP data"] gives [["GDP"; "GDPC1"]], ["unknown indicator"] gives the
    empty list, every name that is no key of the table gives the empty
    list, and every key gives the list the table holds for it. *)
Theorem get_corrected_series_ids_lookup (name : string) :
  get_corrected_series_ids "GDP data" = ["GDP"; "GDPC1"]
  /\ get_corrected_series_ids "unknown indicator" = []
  /\ (~ In name (map fst series_mappings) -> get_corrected_series_ids name = [])
  /\ (forall ids, In (name, ids) series_mappings ->
                  get_corrected_series_ids name = ids).
Proof.
  repeat split.
  - intros H; unfold get_corrected_series_ids.
    rewrite (dict_get_absent _ _ H); reflexivity.
  - intros ids H; simpl in H.
    repeat (destruct H as [H|H]; [injection H as <- <-; reflexivity|]).
    destruct H.
Qed.

(** ** File names *)

Lemma clean_filename_cons (c : ascii) (s : string) :
  clean_filename (String c s) = String (clean_char c) (clean_filename s).
Proof.
  unfold clean_filename, Re.sub_class, Text.lower; simpl; f_equal.
  unfold clean_char, unsafe_char; cbv zeta.
  destruct (Text.is_word (Text.lower_char c)) eqn:Hw; simpl; auto.
  destruct (N.eqb (Text.code (Text.lower_char c)) 45) eqn:H45; simpl.
  - apply N.eqb_eq in H45.
    assert (Text.lower_char c = "-"%char) as ->.
    { rewrite <- (ascii_N_embedding (Text.lower_char c)).
      unfold Text.code in H45; rewrite H45; reflexivity. }
    reflexivity.
  - destruct (N.eqb (Text.code (Text.lower_char c)) 95) eqn:H95.
    + exfalso; unfold Text.is_word in Hw; rewrite H95 in Hw.
      repeat rewrite ?orb_true_r, ?orb_true_l in Hw; discriminate.
    + simpl; destruct (Ascii.eqb_spec (Text.lower_char c) "-"%char) as [Heq|]; auto.
      rewrite Heq in H45; discriminate.
Qed.

Lemma clean_filename_get (name : string) :
  forall i, String.get i (clean_filename name)
            = option_map clean_char (String.get i name).
Proof.
  induction name as [|c s IH]; intros i; [reflexivity|].
  rewrite clean_filename_cons; destruct i; simpl; auto.
Qed.

Lemma clean_filename_length (name : string) :
  String.length (clean_filename name) = String.length name.
Proof.
  induction name as [|c s IH]; [reflexivity|].
  rewrite clean_filename_cons; simpl; congruence.
Qed.

(** ** Reading a request file *)

Section ParseFacts.

Variable E : env.

(** What one call does, as an equation. *)
Lemma parse_bruno_file_run (file_path : string) (s : state) :
  parse_bruno_file E file_path s =
  match read_text E file_path with
  | None => (Ok Config.empty, set_log (ParseFailed file_path OSError :: log s) s)
  | Some content =>
      (Ok (Config.Make (field_of name_re content) (field_of url_re content)
                       (field_of series_id_re content)
                       (field_of api_key_re content) []),
       match Re.search api_key_re content with
       | Some g => if key_truthy (api_key s) then s
                   else set_api_key (Some (Text.strip g)) s
       | None => s
       end)
  end.
Proof.
  unfold parse_bruno_file, try_except, bind, open_read, field_of.
  destruct (read_text E file_path) as [content|]; [|reflexivity].
  unfold ret at 1; cbv beta iota.
  destruct (Re.search name_re content), (Re.search url_re content),
    (Re.search api_key_re content), (Re.search series_id_re content);
    cbv beta iota; unfold gets, modify, ret; cbv beta iota;
    destruct (key_truthy (api_key s)); reflexivity.
Qed.

Lemma parse_bruno_file_total (file_path : string) (s : state) :
  exists config s', parse_bruno_file E file_path s = (Ok config, s').
Proof.
  rewrite parse_bruno_file_run.
  destruct (read_text E file_path); eauto.
Qed.

(** C6.  [parse_bruno_file] returns a record for every path and state, it
    never raises.  When the file cannot be read the record has four empty
    fields; when it can, each field whose pattern finds no match is the
    empty string (and a matched one is the stripped capture). *)
Theorem parse_bruno_file_never_raises (file_path : string) (s : state) :
  exists config s',
    parse_bruno_file E file_path s = (Ok config, s')
    /\ (read_text E file_path = None ->
        Config.name config = "" /\ Config.url config = ""
        /\ Config.series_id config = "" /\ Config.api_key config = "")
    /\ (forall content, read_text E file_path = Some content ->
        Config.name config = field_of name_re content
        /\ Config.url config = field_of url_re content
        /\ Config.series_id config = field_of series_id_re content
        /\ Config.api_key config = field_of api_key_re content
        /\ (Re.search name_re content = None -> Config.name config = "")
        /\ (Re.search url_re content = None -> Config.url config = "")
        /\ (Re.search series_id_re content = None -> Config.series_id config = "")
        /\ (Re.search api_key_re content = None -> Config.api_key config = "")).
Proof.
  rewrite parse_bruno_file_run.
  destruct (read_text E file_path) as [content|]; eexists; eexists;
    (split; [reflexivity|]); split; try discriminate.
  - intros c Hc; injection Hc as <-; simpl.
    unfold field_of; repeat split; intros ->; reflexivity.
  - intros _; repeat split.
Qed.

(** A call changes nothing but, possibly, the key and the log, and it
    logs no save. *)
Lemma parse_bruno_file_frame (file_path : string) (s : state) :
  let s' := snd (parse_bruno_file E file_path s) in
  data_dir s' = data_dir s /\ files s' = files s /\ saves s' = saves s
  /\ clock_reads s' = clock_reads s /\ requests_sent s' = requests_sent s
  /\ write_attempts s' = write_attempts s /\ sleeps s' = sleeps s.
Proof.
  rewrite parse_bruno_file_run.
  destruct (read_text E file_path) as [content|]; simpl.
  - destruct (Re.search api_key_re content); [destruct (key_truthy _)|];
      simpl; repeat split.
  - repeat split.
Qed.

(** The key after one call. *)
Lemma parse_bruno_file_key (file_path : string) (s : state) :
  api_key (snd (parse_bruno_file E file_path s)) =
  if key_truthy (api_key s) then api_key s
  else match first_token E [file_path] with
       | Some g => Some g
       | None => api_key s
       end.
Proof.
  rewrite parse_bruno_file_run; simpl.
  destruct (read_text E file_path) as [content|]; simpl.
  - destruct (Re.search api_key_re content) as [g|] eqn:Hs.
    + destruct (token_strip api_key_re content g eq_refl Hs) as [-> _].
      destruct (key_truthy (api_key s)); reflexivity.
    + destruct (key_truthy (api_key s)); reflexivity.
  - destruct (key_truthy (api_key s)); reflexivity.
Qed.

Lemma first_token_truthy (paths : list string) (g : string) :
  first_token E paths = Some g -> Text.truthy g = true.
Proof.
  induction paths as [|p rest IH]; simpl; [discriminate|].
  destruct (read_text E p) as [content|]; auto.
  destruct (Re.search api_key_re content) as [g'|] eqn:Hs; auto.
  intros H; injection H as <-.
  apply (token_strip api_key_re content g' eq_refl Hs).
Qed.

Lemma parse_each_key (paths : list string) :
  forall s,
    api_key (snd (parse_each E paths s)) =
    if key_truthy (api_key s) then api_key s
    else match first_token E paths with
         | Some g => Some g
         | None => api_key s
         end.
Proof.
  induction paths as [|p rest IH]; intros s.
  - simpl; destruct (key_truthy (api_key s)); reflexivity.
  - cbn [parse_each]; unfold bind at 1.
    pose proof (parse_bruno_file_key p s) as Hk.
    destruct (parse_bruno_file_total p s) as (c & s1 & Hrun).
    rewrite Hrun in Hk |- *; simpl in Hk.
    unfold bind at 1.
    specialize (IH s1).
    destruct (parse_each E rest s1) as [[cs|e] s2]; simpl in IH |- *;
      rewrite IH, Hk;
      (destruct (key_truthy (api_key s)) eqn:Hks;
       [rewrite Hks; reflexivity|]);
      simpl;
      (destruct (read_text E p) as [content|]; simpl;
       [destruct (Re.search api_key_re content) as [g|] eqn:Hs; simpl|];
       try (rewrite Hks; reflexivity));
      rewrite (proj2 (token_strip api_key_re content g eq_refl Hs));
      reflexivity.
Qed.

(** C8.  The effective key is written at most once, by the first file
    that has a token.  With no usable key at construction, after any
    sequence of calls the key is the token of the first file (in call
    order) that has one, whatever tokens later files hold; and from then
    on, as from any state with a usable key, a further call on any file
    leaves it as it is. *)
Theorem api_key_first_write_wins
    (before : list string) (file_path : string) (after : list string)
    (g : string) (s : state) :
  key_truthy (api_key s) = false ->
  first_token E before = None ->
  first_token E [file_path] = Some g ->
  let s1 := snd (parse_each E (before ++ [file_path]) s) in
  let s2 := snd (parse_each E (before ++ file_path :: after) s) in
  api_key s1 = Some g
  /\ api_key s2 = Some g
  /\ (forall later, api_key (snd (parse_bruno_file E later s2)) = Some g).
Proof.
  intros Hk Hb Hf s1 s2; subst s1 s2.
  assert (Hfirst : forall rest, first_token E (before ++ file_path :: rest) = Some g).
  { intros rest; clear Hk; induction before as [|p b IH]; simpl in *.
    - destruct (read_text E file_path) as [content|]; [|discriminate].
      destruct (Re.search api_key_re content); [exact Hf | discriminate].
    - destruct (read_text E p) as [content|]; auto.
      destruct (Re.search api_key_re content); [discriminate | auto]. }
  assert (H2 : api_key (snd (parse_each E (before ++ file_path :: after) s)) = Some g).
  { rewrite parse_each_key, Hk, Hfirst; reflexivity. }
  repeat split.
  - rewrite parse_each_key, Hk, Hfirst; reflexivity.
  - exact H2.
  - intros later; rewrite parse_bruno_file_key, H2; simpl.
    rewrite (first_token_truthy _ _ (Hfirst [])); reflexivity.
Qed.

End ParseFacts.

(** ** Fetching one series *)

Section FetchFacts.

Variable E : env.

Ltac run_fetch :=
  unfold fetch_series_data, fetch_value, request_for, effective_end,
    reads_after_end, error_status, bind, try_except, read_clock, gets, logger,
    modify, requests_get, raise_for_status, response_json, pd_to_datetime,
    raise, ret;
  cbn [fst snd api_key data_dir clock_reads requests_sent sleeps
       write_attempts files log set_log set_clock_reads set_requests_sent].

(** The call never raises, and its value is [fetch_value]. *)
Lemma fetch_series_data_value (series_id start_date : string)
    (end_date : option string) (s : state) :
  fst (fetch_series_data E series_id start_date end_date s)
  = Ok (fetch_value E s series_id start_date end_date).
Proof.
  run_fetch.
  destruct (end_date_given end_date);
    cbn [fst snd api_key data_dir clock_reads requests_sent sleeps
         write_attempts files log set_log set_clock_reads set_requests_sent];
    match goal with
    | |- context [http_get E ?k ?r] => destruct (http_get E k r) as [|status b]
    end; try reflexivity;
    cbn [fst snd is_request_exception];
    destruct ((400 <=? status) && (status <? 600))%bool%Z; try reflexivity;
    destruct b as [| |[|o obs]]; try reflexivity;
    cbn [fst snd is_request_exception];
    destruct (to_datetime E _); reflexivity.
Qed.

(** What the call leaves untouched, and what it adds. *)
Lemma fetch_series_data_frame (series_id start_date : string)
    (end_date : option string) (s : state) :
  let s' := snd (fetch_series_data E series_id start_date end_date s) in
  api_key s' = api_key s /\ data_dir s' = data_dir s /\ files s' = files s
  /\ saves s' = saves s /\ sleeps s' = sleeps s
  /\ write_attempts s' = write_attempts s
  /\ requests_sent s'
     = request_for E s series_id start_date end_date :: requests_sent s
  /\ clock_reads s'
     = match fetch_value E s series_id start_date end_date with
       | Some _ => S (reads_after_end s end_date)
       | None => reads_after_end s end_date
       end.
Proof.
  run_fetch.
  destruct (end_date_given end_date);
    cbn [fst snd api_key data_dir clock_reads requests_sent sleeps
         write_attempts files log set_log set_clock_reads set_requests_sent];
    match goal with
    | |- context [http_get E ?k ?r] => destruct (http_get E k r) as [|status b]
    end; try (repeat split; fail);
    cbn [fst snd is_request_exception];
    destruct ((400 <=? status) && (status <? 600))%bool%Z;
    try (repeat split; fail);
    destruct b as [| |[|o obs]]; try (repeat split; fail);
    cbn [fst snd is_request_exception];
    destruct (to_datetime E _); repeat split.
Qed.


(** A returned frame comes from a usable answer. *)
Lemma fetch_value_some (series_id start_date : string)
    (end_date : option string) (s : state) (df : dataframe) :
  fetch_value E s series_id start_date end_date = Some df ->
  exists status obs dates,
    http_get E (List.length (requests_sent s))
             (request_for E s series_id start_date end_date)
    = Response status (Observations obs)
    /\ error_status status = false
    /\ obs <> []
    /\ to_datetime E (map Raw.date obs) = Some dates
    /\ df = stamp series_id (now E (reads_after_end s end_date))
                  (clean E dates obs).
Proof.
  unfold fetch_value.
  destruct (http_get E _ _) as [|status b]; [discriminate|].
  destruct (error_status status) eqn:Hs; [discriminate|].
  destruct b as [| |[|o obs]]; try discriminate.
  destruct (to_datetime E _) as [dates|] eqn:Hd; [|discriminate].
  intros H; injection H as <-.
  exists status, (o :: obs), dates; repeat split; auto; discriminate.
Qed.

Lemma fetch_series_data_some (series_id start_date : string)
    (end_date : option string) (s s' : state) (df : dataframe) :
  fetch_series_data E series_id start_date end_date s = (Ok (Some df), s') ->
  fetch_value E s series_id start_date end_date = Some df.
Proof.
  intros H.
  pose proof (fetch_series_data_value series_id start_date end_date s) as Hv.
  rewrite H in Hv; simpl in Hv; congruence.
Qed.

End FetchFacts.

(** ** Rows chosen by position *)

Lemma take_rows_seq {A} (l2 : list A) :
  forall l1, take_rows (seq (List.length l1) (List.length l2)) (l1 ++ l2) = l2.
Proof.
  induction l2 as [|x l2 IH]; intros l1; [reflexivity|].
  cbn [List.length seq take_rows flat_map].
  rewrite nth_error_app2, Nat.sub_diag by lia; cbn [nth_error app].
  f_equal.
  specialize (IH (l1 ++ [x])).
  rewrite length_app, Nat.add_1_r, <- app_assoc in IH; exact IH.
Qed.

Lemma take_rows_all {A} (l : list A) :
  take_rows (seq 0 (List.length l)) l = l.
Proof. exact (take_rows_seq l []). Qed.

Lemma take_rows_perm {A} (idx : list nat) (l : list A) :
  Permutation idx (seq 0 (List.length l)) -> Permutation (take_rows idx l) l.
Proof.
  intros H; rewrite <- (take_rows_all l) at 2.
  unfold take_rows; apply Permutation_flat_map, H.
Qed.


Lemma take_rows_In {A} (idx : list nat) (l : list A) (x : A) :
  In x (take_rows idx l) -> In x l.
Proof.
  unfold take_rows; rewrite in_flat_map; intros (i & _ & Hx).
  destruct (nth_error l i) eqn:Hn; [|destruct Hx].
  destruct Hx as [<-|[]]; eapply nth_error_In; eauto.
Qed.



Section CleanFacts.

Variable E : env.

Lemma clean_In (dates : list datetime) (obs : list Raw.t) (c : cell) :
  In c (clean E dates obs) -> In c (cleaned_unsorted E dates obs).
Proof. apply take_rows_In. Qed.

Lemma clean_value_present (dates : list datetime) (obs : list Raw.t) (c : cell) :
  In c (clean E dates obs) -> isna (snd c) = false.
Proof.
  intros H; apply clean_In in H; unfold cleaned_unsorted, dropna in H.
  apply filter_In in H as [_ H]; apply negb_true_iff in H; exact H.
Qed.

Hypothesis pandas : pandas_contract E.

Lemma clean_perm (dates : list datetime) (obs : list Raw.t) :
  Permutation (clean E dates obs) (cleaned_unsorted E dates obs).
Proof.
  apply take_rows_perm.
  pose proof (argsort_perm E pandas (map fst (cleaned_unsorted E dates obs))) as H.
  rewrite length_map in H; exact H.
Qed.



End CleanFacts.

Section FetchClaims.

Variable E : env.


(** The rows of a returned frame: none lacks its value, and each carries
    the series it was fetched for. *)
Lemma fetch_value_rows (series_id start_date : string)
    (end_date : option string) (s : state) (df : dataframe) :
  fetch_value E s series_id start_date end_date = Some df ->
  Forall (fun r => value_present r /\ Row.series_id r = series_id
                   /\ Row.fetched_at r = now E (reads_after_end s end_date)
                   /\ Row.indicator r = None) df.
Proof.
  intros H; apply fetch_value_some in H.
  destruct H as (status & obs & dates & _ & _ & _ & _ & ->).
  apply Forall_forall; intros r Hr; unfold stamp in Hr.
  apply in_map_iff in Hr as (c & <- & Hc); repeat split.
  apply (clean_value_present E dates obs c Hc).
Qed.

(** C10.  In a returned frame every row carries the series identifier
    given to the call and one and the same [fetched_at]: the reading of the
    clock made after the cleaning.  The call reads the clock once for the
    stamp (and once more before the request when no end date is given),
    however many rows there are. *)
Theorem fetch_series_data_one_stamp (series_id start_date : string)
    (end_date : option string) (s s' : state) (df : dataframe) :
  fetch_series_data E series_id start_date end_date s = (Ok (Some df), s') ->
  Forall (fun r => Row.series_id r = series_id
                   /\ Row.fetched_at r = now E (reads_after_end s end_date)) df
  /\ clock_reads s' = S (reads_after_end s end_date)
  /\ reads_after_end s end_date <= S (clock_reads s).
Proof.
  intros H.
  pose proof (fetch_series_data_frame E series_id start_date end_date s) as Hf.
  rewrite H in Hf; cbn [snd] in Hf.
  destruct Hf as (_ & _ & _ & _ & _ & _ & _ & Hc).
  apply fetch_series_data_some in H; rewrite H in Hc.
  repeat split.
  - apply fetch_value_rows in H; revert H; apply Forall_impl; tauto.
  - exact Hc.
  - unfold reads_after_end; destruct (end_date_given end_date); lia.
Qed.

End FetchClaims.

(** ** Saving a frame *)

Section SaveFacts.

Variable E : env.

Lemma save_data_run (data : dataframe) (filename format : string) (s : state) :
  save_data E data filename format s =
  let p := path_join (data_dir s) (file_name filename format) in
  match supported format with
  | None =>
      (Ok tt,
       set_log (SaveFailed p (ValueError ("Unsupported format: " ++ format))
                  :: log s) s)
  | Some k =>
      let s1 := set_write_attempts (S (write_attempts s)) s in
      if write_ok E (write_attempts s) p
      then (Ok tt, set_log (Saved p :: log s)
                     (set_files (dict_set (files s) p (File k data)) s1))
      else (Ok tt, set_log (SaveFailed p OSError :: log s) s1)
  end.
Proof.
  unfold save_data, supported, bind, try_except, gets, write_file, logger,
    modify, raise; cbv zeta.
  destruct (String.eqb format "csv");
    [|destruct (String.eqb format "json");
      [|destruct (String.eqb format "parquet")]];
    cbn [fst snd write_attempts files log set_write_attempts set_files];
    try (destruct (write_ok E (write_attempts s) _)); reflexivity.
Qed.

(** C1 (the code against the claim).  With a format string that has no
    writer, [save_data] returns normally: the [ValueError] it raises is
    caught by its own handler and only logged.  The state changes in the
    log alone, so no file is created or touched. *)
Theorem save_data_unsupported_is_swallowed
    (data : dataframe) (filename format : string) (s : state) :
  supported format = None ->
  save_data E data filename format s =
  (Ok tt,
   set_log (SaveFailed (path_join (data_dir s) (file_name filename format))
                       (ValueError ("Unsupported format: " ++ format))
              :: log s) s).
Proof. intros H; rewrite save_data_run, H; reflexivity. Qed.

End SaveFacts.

(** ** Insertion-ordered dicts *)

Lemma dict_set_keys {V} (d : list (string * V)) (k : string) (v : V) (n : string) :
  In n (map fst (dict_set d k v)) <-> n = k \/ In n (map fst d).
Proof.
  induction d as [|[k' w] d IH]; simpl.
  - intuition.
  - destruct (String.eqb_spec k' k) as [->|Hne]; simpl; [intuition|].
    rewrite IH; intuition.
Qed.

Lemma dict_set_In {V} (d : list (string * V)) (k : string) (v : V)
    (p : string) (f : V) :
  In (p, f) (dict_set d k v) -> (p, f) = (k, v) \/ In (p, f) d.
Proof.
  induction d as [|[k' w] d IH]; simpl.
  - intuition.
  - destruct (String.eqb_spec k' k) as [->|Hne]; simpl; intuition.
Qed.

(** ** The orchestrator *)

Section RunFacts.

Variable E : env.
Variable format : string.

Lemma grows_same (s s' : state) :
  data_dir s' = data_dir s -> saves s' = saves s -> files s' = files s ->
  grows E format s s' [].
Proof.
  intros Hd Hs Hf; unfold grows; rewrite Hd, Hs, Hf.
  repeat split; auto. intros _ p [].
Qed.

Lemma grows_trans (s s1 s2 : state) (n1 n2 : list string) :
  grows E format s s1 n1 -> grows E format s1 s2 n2 ->
  grows E format s s2 (n2 ++ n1).
Proof.
  intros (Hd1 & Hs1 & Hf1 & Hk1 & Hw1) (Hd2 & Hs2 & Hf2 & Hk2 & Hw2).
  unfold grows; repeat split.
  - congruence.
  - rewrite Hs2, Hs1, app_assoc; reflexivity.
  - intros p f H; destruct (Hf2 p f H) as [H1|[H1 H2]].
    + destruct (Hf1 p f H1) as [H3|[H3 H4]]; auto.
      right; split; auto; apply in_or_app; auto.
    + right; split; auto; apply in_or_app; auto.
  - auto.
  - intros W p H; apply in_app_or in H as [H|H]; auto.
Qed.

Lemma save_data_grows (data : dataframe) (filename : string) (s : state) :
  Forall attributed data ->
  exists s',
    save_data E data filename format s = (Ok tt, s')
    /\ grows E format s s' [path_join (data_dir s) (file_name filename format)].
Proof.
  intros Hdata; rewrite save_data_run; cbv zeta.
  set (p := path_join (data_dir s) (file_name filename format)).
  destruct (supported format) as [k|] eqn:Hk.
  - destruct (write_ok E (write_attempts s) p) eqn:Hw; eexists;
      (split; [reflexivity|]); unfold grows, saves; simpl; repeat split; auto.
    + intros q f H; apply dict_set_In in H as [H|H]; auto.
      injection H as -> ->; right; split; auto.
    + intros q H; apply dict_set_keys; auto.
    + intros _ q [<-|[]]; apply dict_set_keys; auto.
    + intros [_ W]; rewrite W in Hw; discriminate.
  - eexists; split; [reflexivity|].
    unfold grows, saves; simpl; repeat split; auto.
    intros [W _]; contradiction.
Qed.

Lemma parse_bruno_file_value (file_path : string) (s : state) :
  fst (parse_bruno_file E file_path s) = Ok (config_of E file_path).
Proof.
  rewrite parse_bruno_file_run; unfold config_of.
  destruct (read_text E file_path); reflexivity.
Qed.

Variables (start_date : string) (delay : float).

Lemma truthy_ids (indicator_name : string) :
  Forall (fun i => Text.truthy i = true)
         (get_corrected_series_ids indicator_name).
Proof.
  unfold get_corrected_series_ids, series_mappings; cbn [dict_get].
  repeat match goal with
         | |- context [String.eqb ?k indicator_name] =>
             destruct (String.eqb k indicator_name); [repeat constructor|]
         end.
  constructor.
Qed.

Lemma resolve_series_truthy (indicator_name : string) (config : Config.t)
    (ids : list string) :
  resolve_series indicator_name config = Some ids ->
  Forall (fun i => Text.truthy i = true) ids.
Proof.
  unfold resolve_series; pose proof (truthy_ids indicator_name) as H.
  destruct (get_corrected_series_ids indicator_name).
  - destruct (Text.truthy (Config.series_id config)) eqn:Ht; [|discriminate].
    intros Hq; injection Hq as <-; repeat constructor; exact Ht.
  - intros Hq; injection Hq as <-; exact H.
Qed.

Lemma fetch_each_spec (series_ids : list string) :
  forall (acc : list dataframe) (s : state) r s',
    Forall (fun i => Text.truthy i = true) series_ids ->
    fetch_each E series_ids start_date delay acc s = (r, s') ->
    data_dir s' = data_dir s /\ saves s' = saves s /\ files s' = files s
    /\ (forall l, r = Ok l ->
          exists new, l = acc ++ new /\ Forall (Forall attributed) new)
    /\ (PrimFloat.leb 0 delay = true -> exists l, r = Ok l).
Proof.
  induction series_ids as [|sid ids IH]; intros acc s r s' Hids H.
  - injection H as <- <-; repeat split; eauto.
    intros l H; injection H as <-; exists []; rewrite app_nil_r; auto.
  - cbn [fetch_each] in H; unfold bind at 1 in H.
    pose proof (fetch_series_data_value E sid start_date None s) as Hv.
    pose proof (fetch_series_data_frame E sid start_date None s) as Hf.
    destruct (fetch_series_data E sid start_date None s) as [rf s1].
    cbn [fst snd] in Hv, Hf; subst rf.
    destruct Hf as (_ & Hd & Hfi & Hsa & _).
    unfold bind at 1, sleep in H.
    destruct (PrimFloat.leb 0 delay) eqn:Hdelay.
    + unfold modify in H; apply IH in H; [|inversion Hids; assumption].
      destruct H as (Hd2 & Hsa2 & Hfi2 & Hok & Htot).
      unfold saves in *; simpl in Hd2, Hsa2, Hfi2.
      repeat split; try congruence; auto.
      intros l Hl; destruct (Hok l Hl) as (new & -> & Hnew).
      destruct (fetch_value E s sid start_date None) as [df|] eqn:Hfv.
      * exists (df :: new); rewrite <- app_assoc; split; auto.
        constructor; auto.
        apply fetch_value_rows in Hfv; revert Hfv; apply Forall_impl.
        intros row (Hv & Hsid & _); split; [exact Hv|].
        rewrite Hsid; inversion Hids; assumption.
      * exists new; auto.
    + unfold raise in H; injection H as <- <-.
      repeat split; auto; discriminate.
Qed.

(** One turn of the loop. *)
Lemma process_file_spec (bruno_file : Entry.t)
    (all_data : list (string * dataframe)) (s : state) r s' :
  process_file E bruno_file start_date format delay all_data s = (r, s') ->
  let name := indicator_of E bruno_file in
  exists new,
    grows E format s s' new
    /\ (forall all_data', r = Ok all_data' ->
          (new = [] /\ all_data' = all_data)
          \/ (exists df,
                new = [indicator_path (data_dir s) name format]
                /\ all_data' = dict_set all_data name df
                /\ Forall attributed df))
    /\ (forall e, r = Raise e -> new = [])
    /\ (PrimFloat.leb 0 delay = true -> exists all_data', r = Ok all_data').
Proof.
  intros H name.
  unfold process_file, bind at 1, logger at 1, modify in H.
  set (s0 := set_log (Processing _ :: log s) s) in H.
  unfold bind at 1 in H.
  pose proof (parse_bruno_file_value (Entry.path bruno_file) s0) as Hv.
  pose proof (parse_bruno_file_frame E (Entry.path bruno_file) s0) as Hf.
  destruct (parse_bruno_file E (Entry.path bruno_file) s0) as [rc s1].
  cbn [fst snd] in Hv, Hf; subst rc.
  destruct Hf as (Hd1 & Hfi1 & Hsa1 & _).
  assert (G1 : grows E format s s1 []).
  { apply grows_same; [rewrite Hd1 | rewrite Hsa1 | rewrite Hfi1]; reflexivity. }
  fold (indicator_of E bruno_file) in H; fold name in H.
  destruct (resolve_series name (config_of E (Entry.path bruno_file)))
    as [series_ids|] eqn:Hres.
  - apply resolve_series_truthy in Hres.
    unfold bind at 1 in H.
    destruct (fetch_each E series_ids start_date delay [] s1) as [[l|e] s2] eqn:Hfe;
      apply fetch_each_spec in Hfe; try exact Hres;
      destruct Hfe as (Hd2 & Hsa2 & Hfi2 & Hok & Htot).
    + assert (G2 : grows E format s s2 []).
      { apply (grows_trans s s1 s2 [] [] G1), grows_same; auto. }
      destruct (Hok l eq_refl) as (new & Hl & Hnew); simpl in Hl; subst new.
      destruct l as [|d l'].
      * unfold bind, logger, modify, ret in H; injection H as <- <-.
        exists []; split;
          [|split; [intros ad Hq; injection Hq as <-; left; auto
                   |split; [auto | eauto]]].
        eapply grows_trans with (n2 := []); [exact G2|].
        apply grows_same; reflexivity.
      * unfold bind at 1 in H.
        assert (Hgood : Forall attributed (combine_frames (d :: l'))).
        { unfold combine_frames; destruct l'.
          - inversion Hnew; auto.
          - apply Forall_concat, Hnew. }
        destruct (save_data_grows (combine_frames (d :: l'))
                                  (clean_filename name) s2 Hgood)
          as (s3 & Hrun & G3).
        rewrite Hrun in H; unfold ret in H; injection H as <- <-.
        exists [indicator_path (data_dir s) name format].
        split; [|split; [|split]].
        -- replace (data_dir s) with (data_dir s2)
             by (destruct G2 as (-> & _); reflexivity).
           apply (grows_trans s s2 s3 [] _ G2 G3).
        -- intros ad H; injection H as <-; right; eauto.
        -- discriminate.
        -- eauto.
    + injection H as <- <-.
      exists []; split; [|split; [|split]]; try discriminate; auto.
      * apply (grows_trans s s1 s2 [] [] G1), grows_same; auto.
      * intros Hdl; destruct (Htot Hdl); discriminate.
  - unfold bind, logger, modify, ret in H; injection H as <- <-.
    exists []; split;
          [|split; [intros ad Hq; injection Hq as <-; left; auto
                   |split; [auto | eauto]]].
    eapply grows_trans with (n2 := []); [exact G1|].
    apply grows_same; reflexivity.
Qed.

Lemma dict_set_frames_ok (d : list (string * dataframe)) (k : string)
    (v : dataframe) :
  frames_ok d -> Forall attributed v -> frames_ok (dict_set d k v).
Proof.
  unfold frames_ok; intros Hd Hv; induction d as [|[k' w] d IH]; simpl.
  - constructor; auto.
  - inversion Hd; subst.
    destruct (String.eqb k' k); constructor; auto.
Qed.

Lemma tag_indicator_ok (indicator : string) (df : dataframe) :
  Forall attributed df -> Forall attributed (tag_indicator indicator df).
Proof.
  unfold tag_indicator; intros H; rewrite Forall_map.
  revert H; apply Forall_impl; intros r Hr; exact Hr.
Qed.

(** The loop over the request files. *)
Lemma process_files_spec (bruno_files : list Entry.t) :
  forall (all_data : list (string * dataframe)) (s : state) r s',
    process_files E bruno_files start_date format delay all_data s = (r, s') ->
    frames_ok all_data ->
    exists names,
      grows E format s s' (indicator_saves (data_dir s) format names)
      /\ incl names (map (indicator_of E) bruno_files)
      /\ (forall all_data', r = Ok all_data' ->
            (forall n, In n (map fst all_data')
                       <-> In n (map fst all_data) \/ In n names)
            /\ frames_ok all_data')
      /\ (PrimFloat.leb 0 delay = true -> exists all_data', r = Ok all_data').
Proof.
  induction bruno_files as [|bf rest IH]; intros all_data s r s' H Hgood.
  - injection H as <- <-; exists []; split; [|split; [|split]].
    + apply grows_same; reflexivity.
    + apply incl_refl.
    + intros ad Hq; injection Hq as <-; split; [simpl; tauto | exact Hgood].
    + eauto.
  - cbn [process_files] in H; unfold bind at 1 in H.
    destruct (process_file E bf start_date format delay all_data s)
      as [[ad1|e] s1] eqn:Hp; apply process_file_spec in Hp;
      destruct Hp as (new & G & Hok & Hraise & Htot).
    + assert (Hd : data_dir s1 = data_dir s) by (destruct G as (-> & _); reflexivity).
      destruct (Hok ad1 eq_refl) as [[-> ->] | (df & -> & -> & Hdf)].
      * destruct (IH _ _ _ _ H Hgood) as (names & G2 & Hin & Hkeys & Htot2).
        exists names; split; [|split; [|split]]; auto.
        -- rewrite Hd in G2.
           pose proof (grows_trans s s1 s' _ _ G G2) as G3.
           rewrite app_nil_r in G3; exact G3.
        -- apply incl_tl, Hin.
      * pose proof (dict_set_frames_ok all_data (indicator_of E bf) df Hgood Hdf)
          as Hgood1.
        destruct (IH _ _ _ _ H Hgood1) as (names & G2 & Hin & Hkeys & Htot2).
        exists (indicator_of E bf :: names); split; [|split; [|split]]; auto.
        -- rewrite Hd in G2.
           pose proof (grows_trans s s1 s' _ _ G G2) as G3.
           unfold indicator_saves in *; simpl; exact G3.
        -- apply incl_cons; [left; reflexivity | apply incl_tl, Hin].
        -- intros ad Hq; destruct (Hkeys ad Hq) as [Hk Hg]; split; auto.
           intros n; rewrite Hk, dict_set_keys; simpl; intuition.
    + injection H as <- <-; exists []; split; [|split; [|split]].
      * rewrite (Hraise e eq_refl) in G; exact G.
      * apply incl_nil_l.
      * discriminate.
      * intros Hdl; destruct (Htot Hdl); discriminate.
Qed.

(** The whole run. *)
Lemma fetch_all_indicators_spec (bruno_dir : string) (s : state) r s' :
  fetch_all_indicators E bruno_dir start_date format delay s = (r, s') ->
  exists names new,
    grows E format s s' new
    /\ incl names (match glob_bru E bruno_dir with
                   | Some bruno_files => map (indicator_of E) bruno_files
                   | None => []
                   end)
    /\ (forall all_data, r = Ok all_data ->
          new = combined_saves (data_dir s) format all_data
                ++ indicator_saves (data_dir s) format names
          /\ (forall n, In n (map fst all_data) <-> In n names))
    /\ (forall e, r = Raise e ->
          new = indicator_saves (data_dir s) format names)
    /\ (PrimFloat.leb 0 delay = true -> exists all_data, r = Ok all_data).
Proof.
  unfold fetch_all_indicators; intros H.
  destruct (glob_bru E bruno_dir) as [bruno_files|].
  - unfold bind at 1, logger at 1, modify in H.
    set (s0 := set_log (FoundFiles _ :: log s) s) in H.
    assert (G0 : grows E format s s0 []) by (apply grows_same; reflexivity).
    unfold bind at 1 in H.
    destruct (process_files E bruno_files start_date format delay [] s0)
      as [[all_data|e] s1] eqn:Hp;
      apply process_files_spec in Hp; try (constructor; fail);
      destruct Hp as (names & G1 & Hin & Hkeys & Htot); exists names;
      change (data_dir s0) with (data_dir s) in G1;
      pose proof (grows_trans s s0 s1 _ _ G0 G1) as G; rewrite app_nil_r in G.
    + destruct (Hkeys all_data eq_refl) as [Hk Hgood].
      assert (Hd : data_dir s1 = data_dir s) by (destruct G as (-> & _); reflexivity).
      destruct all_data as [|kv all_data'].
      * unfold bind, logger, modify, ret in H; injection H as <- <-.
        exists (indicator_saves (data_dir s) format names).
        split; [|split; [|split; [|split]]];
          [ eapply grows_trans with (n2 := []);
            [exact G | apply grows_same; reflexivity]
          | exact Hin
          | intros ad Hq; injection Hq as <-; split; [reflexivity|];
            intros n; rewrite Hk; simpl; tauto
          | discriminate
          | eauto ].
      * unfold bind at 1 in H; unfold bind at 1, logger at 1, modify in H.
        cbn [map] in H.
        set (s2 := set_log (CreatingCombined :: log s1) s1) in H.
        set (master := List.concat _) in H.
        assert (Hm : Forall attributed master).
        { subst master; apply Forall_concat.
          change (Forall (Forall attributed)
                    (map (fun kv0 => tag_indicator (fst kv0) (snd kv0))
                         (kv :: all_data'))).
          rewrite Forall_map; revert Hgood; apply Forall_impl.
          intros a Ha; apply tag_indicator_ok, Ha. }
        destruct (save_data_grows master "all_economic_indicators" s2 Hm)
          as (s3 & Hrun & G3).
        rewrite Hrun in H.
        unfold bind, logger, modify, ret in H; injection H as <- <-.
        change (data_dir s2) with (data_dir s1) in G3; rewrite Hd in G3.
        exists (combined_path (data_dir s) format
                  :: indicator_saves (data_dir s) format names).
        assert (G2 : grows E format s s2 (indicator_saves (data_dir s) format names)).
        { eapply grows_trans with (n2 := []); [exact G|].
          apply grows_same; reflexivity. }
        pose proof (grows_trans s s2 s3 _ _ G2 G3) as G4.
        split; [|split; [|split; [|split]]];
          [ eapply grows_trans with (n2 := []);
            [exact G4 | apply grows_same; reflexivity]
          | exact Hin
          | intros ad Hq; injection Hq as <-; split; [reflexivity|];
            intros n; rewrite Hk; simpl; tauto
          | discriminate
          | eauto ].
    + injection H as <- <-.
      exists (indicator_saves (data_dir s) format names).
      split; [|split; [|split; [|split]]];
        [ exact G | exact Hin | discriminate | reflexivity
        | intros Hdl; destruct (Htot Hdl); discriminate ].
  - unfold bind, logger, modify, ret in H; injection H as <- <-.
    exists [], []; split; [|split; [|split; [|split]]];
      [ apply grows_same; reflexivity
      | apply incl_refl
      | intros ad Hq; injection Hq as <-; split; [reflexivity | simpl; tauto]
      | discriminate
      | eauto ].
Qed.

End RunFacts.

(** ** The example orderings meet what is assumed of pandas *)

Section InsertionSort.

Variable leb : datetime * nat -> datetime * nat -> bool.
Hypothesis leb_total : forall a b, leb a b = true \/ leb b a = true.
Hypothesis leb_key : forall a b, leb a b = true -> dt_le (fst a) (fst b).

Abbreviation R := (fun a b : datetime * nat => leb a b = true).

Lemma insert_by_perm (x : datetime * nat) (l : list (datetime * nat)) :
  Permutation (Demo.insert_by leb x l) (x :: l).
Proof.
  induction l as [|y l IH]; simpl; auto.
  destruct (leb x y); auto.
  rewrite IH; apply perm_swap.
Qed.

Lemma isort_by_perm (l : list (datetime * nat)) :
  Permutation (Demo.isort_by leb l) l.
Proof.
  induction l as [|x l IH]; simpl; auto.
  rewrite insert_by_perm; auto.
Qed.

Lemma insert_by_sorted (x : datetime * nat) (l : list (datetime * nat)) :
  Sorted R l -> Sorted R (Demo.insert_by leb x l).
Proof.
  induction l as [|y l IH]; intros Hs; simpl.
  - repeat constructor.
  - destruct (leb x y) eqn:Hxy.
    + constructor; auto.
    + inversion Hs as [|? ? Hs' Hhd]; subst.
      constructor; [auto|].
      assert (Hyx : R y x).
      { destruct (leb_total x y) as [H|H]; [congruence | exact H]. }
      destruct l as [|z l]; simpl.
      * constructor; exact Hyx.
      * destruct (leb x z); constructor; auto.
        inversion Hhd; auto.
Qed.

Lemma isort_by_sorted (l : list (datetime * nat)) :
  Sorted R (Demo.isort_by leb l).
Proof.
  induction l as [|x l IH]; simpl; [constructor|].
  apply insert_by_sorted, IH.
Qed.

Lemma combine_seq_snd (keys : list datetime) :
  forall a, map snd (combine keys (seq a (List.length keys)))
            = seq a (List.length keys).
Proof.
  induction keys as [|k keys IH]; intros a; simpl; [reflexivity|].
  f_equal; apply IH.
Qed.

Lemma combine_seq_nth (keys : list datetime) (k : datetime) (i : nat) :
  forall a, In (k, i) (combine keys (seq a (List.length keys))) ->
            a <= i /\ nth_error keys (i - a) = Some k.
Proof.
  induction keys as [|k' keys IH]; intros a H; simpl in H; [destruct H|].
  destruct H as [H|H].
  - injection H as -> ->; rewrite Nat.sub_diag; split; auto.
  - apply IH in H as [Hle Hn]; split; [lia|].
    replace (i - a) with (S (i - S a)) by lia; exact Hn.
Qed.

Lemma take_rows_pairs (keys : list datetime) (ps : list (datetime * nat)) :
  (forall k i, In (k, i) ps -> nth_error keys i = Some k) ->
  take_rows (map snd ps) keys = map fst ps.
Proof.
  induction ps as [|[k i] ps IH]; intros H; [reflexivity|].
  cbn [map snd fst take_rows flat_map].
  rewrite (H k i) by (left; reflexivity); simpl; f_equal.
  apply IH; intros k' i' Hin; apply H; right; exact Hin.
Qed.

Lemma Sorted_map_keys (ps : list (datetime * nat)) :
  Sorted R ps -> Sorted dt_le (map fst ps).
Proof.
  induction 1 as [|p ps Hs IH Hhd]; simpl; constructor; auto.
  destruct Hhd; simpl; constructor; apply leb_key; assumption.
Qed.

Lemma argsort_with_perm (keys : list datetime) :
  Permutation (Demo.argsort_with leb keys) (seq 0 (List.length keys)).
Proof.
  unfold Demo.argsort_with.
  rewrite <- (combine_seq_snd keys 0) at 2.
  apply Permutation_map, isort_by_perm.
Qed.

Lemma argsort_with_sorted (keys : list datetime) :
  Sorted dt_le (take_rows (Demo.argsort_with leb keys) keys).
Proof.
  unfold Demo.argsort_with; rewrite take_rows_pairs.
  - apply Sorted_map_keys, isort_by_sorted.
  - intros k i H.
    apply (Permutation_in _ (isort_by_perm _)) in H.
    apply combine_seq_nth in H as [_ H].
    rewrite Nat.sub_0_r in H; exact H.
Qed.

End InsertionSort.

Lemma dt_leb_total (a b : datetime) : dt_leb a b = true \/ dt_leb b a = true.
Proof.
  destruct a, b; simpl; auto.
  destruct (Z.leb_spec t t0); auto; right; apply Z.leb_le; lia.
Qed.

Lemma by_key_then_position_total (a b : datetime * nat) :
  Demo.by_key_then_position a b = true \/ Demo.by_key_then_position b a = true.
Proof.
  unfold Demo.by_key_then_position, Demo.dt_ltb.
  destruct (dt_leb (fst a) (fst b)) eqn:Hab, (dt_leb (fst b) (fst a)) eqn:Hba;
    simpl; auto.
  destruct (Nat.leb_spec (snd a) (snd b)); auto.
  right; apply Nat.leb_le; lia.
Qed.

Lemma by_key_then_position_key (a b : datetime * nat) :
  Demo.by_key_then_position a b = true -> dt_le (fst a) (fst b).
Proof.
  unfold Demo.by_key_then_position, Demo.dt_ltb, dt_le.
  destruct (dt_leb (fst a) (fst b)) eqn:Hab; auto.
  destruct (dt_leb (fst b) (fst a)) eqn:Hba; simpl; try discriminate.
  destruct (dt_leb_total (fst a) (fst b)); congruence.
Qed.



Lemma read_dates_length (col : list string) :
  forall dates, Demo.read_dates col = Some dates ->
                List.length dates = List.length col.
Proof.
  induction col as [|c col IH]; intros dates H; simpl in H.
  - injection H as <-; reflexivity.
  - destruct (Demo.read_date c); [|discriminate].
    destruct (Demo.read_dates col) eqn:Hr; [|discriminate].
    injection H as <-; simpl; f_equal; apply IH; reflexivity.
Qed.

Lemma demo_keeping_ties (u p : list Raw.t) :
  pandas_contract (Demo.make Demo.argsort_keeping_ties u p).
Proof.
  constructor; simpl.
  - apply argsort_with_perm.
  - apply argsort_with_sorted;
      [apply by_key_then_position_total | apply by_key_then_position_key].
  - apply read_dates_length.
Defined.


(** ** Runs of the orchestrator *)

Section RunClaims.

Variable E : env.
Variables (bruno_dir start_date format : string) (delay : float).


(** C5, as amended.  Every path saved or written in a run is the path of
    the combined file or, for a request file of the directory, the data
    directory joined with base + "." + format, where base is the
    indicator name lower-cased with every character that is neither a word
    character nor a hyphen replaced by an underscore: it has the length of
    the name, and its characters are those of the name, each through
    [clean_char]. *)
Theorem saved_paths_are_cleaned_names (s s' : state)
    (r : result (list (string * dataframe))) (p : string) :
  fetch_all_indicators E bruno_dir start_date format delay s = (r, s') ->
  In p (saves s') \/ In p (map fst (files s')) ->
  In p (saves s) \/ In p (map fst (files s))
  \/ p = combined_path (data_dir s) format
  \/ exists bruno_files bruno_file base,
       glob_bru E bruno_dir = Some bruno_files
       /\ In bruno_file bruno_files
       /\ base = clean_filename (indicator_of E bruno_file)
       /\ p = path_join (data_dir s) (base ++ "." ++ format)
       /\ String.length base = String.length (indicator_of E bruno_file)
       /\ forall i, String.get i base
                    = option_map clean_char
                        (String.get i (indicator_of E bruno_file)).
Proof.
  intros H Hp.
  destruct (fetch_all_indicators_spec E format start_date delay bruno_dir s _ _ H)
    as (names & new & G & Hin & Hok & Hraise & _).
  destruct G as (_ & Hs & Hf & _ & _).
  assert (Hnew : In p (saves s) \/ In p (map fst (files s)) \/ In p new).
  { destruct Hp as [Hp|Hp].
    - rewrite Hs in Hp; apply in_app_or in Hp; tauto.
    - apply in_map_iff in Hp as ([q f] & <- & Hq); simpl.
      destruct (Hf q f Hq) as [H1|[H1 _]]; auto.
      right; left; apply in_map_iff; exists (q, f); auto. }
  destruct Hnew as [H1|[H1|H1]]; auto.
  assert (Hcases : p = combined_path (data_dir s) format
                   \/ In p (indicator_saves (data_dir s) format names)).
  { destruct r as [all_data|e].
    - destruct (Hok all_data eq_refl) as [-> _].
      apply in_app_or in H1 as [H1|H1]; auto.
      destruct all_data; [destruct H1|]. destruct H1 as [<-|[]]; auto.
    - rewrite (Hraise e eq_refl) in H1; auto. }
  destruct Hcases as [->|Hc]; auto.
  unfold indicator_saves in Hc; apply in_rev, in_map_iff in Hc as (n & <- & Hn).
  apply Hin in Hn.
  destruct (glob_bru E bruno_dir) as [bruno_files|]; [|destruct Hn].
  apply in_map_iff in Hn as (bf & <- & Hbf).
  do 3 right; exists bruno_files, bf, (clean_filename (indicator_of E bf)).
  repeat split; auto.
  - apply clean_filename_length.
  - apply clean_filename_get.
Qed.

End RunClaims.

(** C7, as amended.  Rows whose value fails the numeric coercion are not
    in a returned frame: every row of it has a value that is a number, and
    carries the series identifier of the call.  Every row of every file
    written in a run has such a value and a series identifier that is not
    empty.  (The date of a row is whatever [to_datetime] made of the raw
    date, which can be the missing date.) *)
Theorem persisted_rows_have_values (E : env) :
  (forall series_id start_date end_date s s' df,
      fetch_series_data E series_id start_date end_date s = (Ok (Some df), s') ->
      Forall (fun r => value_present r /\ Row.series_id r = series_id) df)
  /\ (forall bruno_dir start_date format delay s r s',
        fetch_all_indicators E bruno_dir start_date format delay s = (r, s') ->
        forall p f, In (p, f) (files s') ->
                    In (p, f) (files s) \/ Forall attributed (rows f)).
Proof.
  split.
  - intros sid start end_date s s' df H.
    apply fetch_series_data_some, fetch_value_rows in H.
    revert H; apply Forall_impl; tauto.
  - intros bruno_dir start format delay s r s' H p f Hin.
    destruct (fetch_all_indicators_spec E format start delay bruno_dir s _ _ H)
      as (names & new & G & _).
    destruct G as (_ & _ & Hf & _).
    destruct (Hf p f Hin) as [H1|[_ H1]]; auto.
Qed.

(* ================================================================== *)
(** * The properties at concrete inputs *)
(* ================================================================== *)

(** [save_data(frame, "gdp_example", "xml")]: no exception reaches the
    caller, and the only trace is one line of the log. *)
Lemma save_data_xml_is_swallowed :
  save_data Demo.plain Demo.unrate_frame "gdp_example" "xml" Demo.fresh
  = (Ok tt,
     State None "data" 0 [] [] 0 []
           [SaveFailed "data/gdp_example.xml"
                       (ValueError "Unsupported format: xml")]).
Proof.
  exact (save_data_unsupported_is_swallowed Demo.plain Demo.unrate_frame
           "gdp_example" "xml" Demo.fresh eq_refl).
Defined.






(** The path saved for ["Non-Farm data"] in a run. *)
Lemma non_farm_path :
  In "data/non-farm_data.csv" (saves Demo.fresh)
  \/ In "data/non-farm_data.csv" (map fst (files Demo.fresh))
  \/ "data/non-farm_data.csv" = combined_path "data" "csv"
  \/ exists bruno_files bruno_file base,
       glob_bru Demo.undated "api/Economic Data" = Some bruno_files
       /\ In bruno_file bruno_files
       /\ base = clean_filename (indicator_of Demo.undated bruno_file)
       /\ "data/non-farm_data.csv" = path_join "data" (base ++ "." ++ "csv")
       /\ String.length base
          = String.length (indicator_of Demo.undated bruno_file)
       /\ forall i, String.get i base
                    = option_map clean_char
                        (String.get i (indicator_of Demo.undated bruno_file)).
Proof.
  refine (saved_paths_are_cleaned_names Demo.undated "api/Economic Data"
            "2020-01-01" "csv" 0.5%float Demo.fresh
            (snd (Demo.run Demo.undated "csv"))
            (fst (Demo.run Demo.undated "csv"))
            "data/non-farm_data.csv" _ _).
  - unfold Demo.run; destruct (fetch_all_indicators _ _ _ _ _ _); reflexivity.
  - left; vm_compute; auto.
Defined.

(** The hyphen of ["Non-Farm data"] stays in the file name: the name the
    specification describes is not among the files of the run. *)
Lemma hyphen_is_kept :
  indicator_of Demo.undated (Entry.Make "api/Economic Data/payroll.bru" "payroll")
  = "Non-Farm data"
  /\ map fst (files (snd (Demo.run Demo.undated "csv")))
     = ["data/unrate_data.csv"; "data/non-farm_data.csv";
        "data/all_economic_indicators.csv"]
  /\ path_join "data" (file_name (spec_base_name "Non-Farm data") "csv")
     = "data/non_farm_data.csv".
Proof. repeat split; vm_compute; reflexivity. Qed.

(** A row whose raw date is the empty text is persisted with a missing
    date. *)
Lemma missing_date_is_persisted :
  dict_get (files (snd (Demo.run Demo.undated "csv"))) "data/non-farm_data.csv"
  = Some (File Csv [Row.Make NaT (Demo.read_value "1.5") "PAYEMS"
                             1700000003 None]).
Proof. vm_compute; reflexivity. Qed.

(** The key of the first request file wins over the key of the second. *)
Lemma unrate_key_wins :
  api_key (snd (parse_each Demo.plain
                  ["api/Economic Data/unrate.bru";
                   "api/Economic Data/payroll.bru"] Demo.fresh))
  = Some "abc123"
  /\ first_token Demo.plain ["api/Economic Data/payroll.bru"] = Some "zzz999".
Proof.
  split; [|vm_compute; reflexivity].
  refine (proj1 (proj2 (api_key_first_write_wins Demo.plain []
                          "api/Economic Data/unrate.bru"
                          ["api/Economic Data/payroll.bru"] "abc123"
                          Demo.fresh _ _ _)));
    vm_compute; reflexivity.
Defined.

(** The three rows of the example frame share one stamp. *)
Lemma unrate_frame_one_stamp :
  Forall (fun r => Row.series_id r = "UNRATE"
                   /\ Row.fetched_at r = 1700000001%Z) Demo.unrate_frame
  /\ clock_reads (snd (fetch_series_data Demo.plain "UNRATE" "2020-01-01"
                                         None Demo.fresh)) = 2.
Proof.
  refine (let H := fetch_series_data_one_stamp Demo.plain "UNRATE" "2020-01-01"
                     None Demo.fresh
                     (snd (fetch_series_data Demo.plain "UNRATE" "2020-01-01"
                                             None Demo.fresh))
                     Demo.unrate_frame _ in
          conj (proj1 H) (proj1 (proj2 H))).
  vm_compute; reflexivity.
Defined.

(* ================================================================== *)
(** * Further properties of the methods *)
(* ================================================================== *)

(** ** Dict lookups after an assignment *)



(** ** [save_data] *)

Section SaveExtras.

Variable E : env.

(** X1.  [save_data] never raises.  It logs exactly one line naming the
    path: [Saved] when the format has a writer and the write succeeds,
    [SaveFailed] in every other case; the caller gets the same normal
    return either way.  The key, the clock, the requests and the sleeps
    are not touched. *)
Theorem save_data_outcome (data : dataframe) (filename format : string)
    (s : state) :
  let p := path_join (data_dir s) (file_name filename format) in
  exists s',
    save_data E data filename format s = (Ok tt, s')
    /\ ((log s' = Saved p :: log s
         /\ supported format <> None
         /\ write_ok E (write_attempts s) p = true)
        \/ (exists e, log s' = SaveFailed p e :: log s
            /\ (supported format = None
                \/ write_ok E (write_attempts s) p = false)))
    /\ api_key s' = api_key s /\ data_dir s' = data_dir s
    /\ clock_reads s' = clock_reads s
    /\ requests_sent s' = requests_sent s /\ sleeps s' = sleeps s.
Proof.
  intros p; rewrite save_data_run; cbv zeta; fold p.
  destruct (supported format) as [k|].
  - destruct (write_ok E (write_attempts s) p) eqn:Hw; eexists;
      (split; [reflexivity|]); simpl; repeat split; auto.
    + left; repeat split; auto; discriminate.
    + right; eauto.
  - eexists; split; [reflexivity|]; simpl; repeat split; auto.
    right; eauto.
Qed.



End SaveExtras.

(** ** [fetch_series_data] *)

Section FetchExtras.

Variable E : env.

(** X4.  A call sends exactly one request, whether it then succeeds or
    fails: there is no retry.  The request names the series, the key the
    fetcher holds at that moment, the JSON file type, the start date, and
    as end date the one given or, failing that, the day the clock shows.
    The call changes neither the key nor any file, and does not sleep. *)
Theorem fetch_series_data_one_request (series_id start_date : string)
    (end_date : option string) (s : state) :
  let s' := snd (fetch_series_data E series_id start_date end_date s) in
  requests_sent s'
  = Request.Make series_id (api_key s) "json" start_date
      (match end_date with
       | Some (String c d) => String c d
       | _ => strftime_ymd E (now E (clock_reads s))
       end)
    :: requests_sent s
  /\ api_key s' = api_key s /\ files s' = files s
  /\ write_attempts s' = write_attempts s /\ sleeps s' = sleeps s.
Proof.
  pose proof (fetch_series_data_frame E series_id start_date end_date s) as H.
  cbv zeta in H |- *.
  destruct H as (Hk & _ & Hf & _ & Hsl & Hw & Hr & _).
  repeat split; auto.
  rewrite Hr; unfold request_for, effective_end, end_date_given.
  destruct end_date as [[|c d]|]; reflexivity.
Qed.

Lemma dropna_length (obs : list Raw.t) :
  forall dates,
    List.length dates = List.length obs ->
    List.length (cleaned_unsorted E dates obs)
    = List.length (filter (coercible E) obs).
Proof.
  unfold cleaned_unsorted, dropna, coercible.
  induction obs as [|o obs IH]; intros [|d dates] H; simpl in *;
    try discriminate; auto.
  destruct (isna (to_numeric E (Raw.value o))); simpl; auto.
Qed.

Hypothesis pandas : pandas_contract E.

(** X5.  A returned frame has one row for each observation whose value
    survives the coercion, no more and no fewer: rows are neither lost
    nor doubled by the conversion, the dropping and the sorting.  So it
    never has more rows than the answer had observations, and has as many
    when every value is a number. *)
Theorem fetch_series_data_row_count (series_id start_date : string)
    (end_date : option string) (s s' : state) (df : dataframe) :
  fetch_series_data E series_id start_date end_date s = (Ok (Some df), s') ->
  exists status obs,
    http_get E (List.length (requests_sent s))
             (request_for E s series_id start_date end_date)
    = Response status (Observations obs)
    /\ List.length df = List.length (filter (coercible E) obs)
    /\ List.length df <= List.length obs
    /\ (forallb (coercible E) obs = true -> List.length df = List.length obs).
Proof.
  intros H; apply fetch_series_data_some, fetch_value_some in H.
  destruct H as (status & obs & dates & Hget & _ & _ & Hd & ->).
  assert (Hlen : List.length (stamp series_id
                                (now E (reads_after_end s end_date))
                                (clean E dates obs))
                 = List.length (filter (coercible E) obs)).
  { unfold stamp; rewrite length_map.
    etransitivity;
      [apply Permutation_length, (clean_perm E pandas dates obs)|].
    apply dropna_length.
    rewrite (to_datetime_length E pandas _ _ Hd); apply length_map. }
  exists status, obs; repeat split; auto.
  - rewrite Hlen; apply filter_length_le.
  - intros Hall; rewrite Hlen; f_equal.
    clear - Hall; induction obs as [|o obs IH]; simpl in *; auto.
    apply andb_true_iff in Hall as [-> Hall]; f_equal; auto.
Qed.

End FetchExtras.

(** The example answer of three months: three rows in, three rows out. *)
Lemma three_months_row_count :
  exists status obs,
    http_get Demo.plain 0
             (request_for Demo.plain Demo.fresh "UNRATE" "2020-01-01" None)
    = Response status (Observations obs)
    /\ List.length Demo.unrate_frame = List.length (filter (coercible Demo.plain) obs)
    /\ List.length Demo.unrate_frame <= List.length obs
    /\ (forallb (coercible Demo.plain) obs = true ->
        List.length Demo.unrate_frame = List.length obs).
Proof.
  refine (fetch_series_data_row_count Demo.plain (demo_keeping_ties _ _)
            "UNRATE" "2020-01-01" None Demo.fresh
            (snd (fetch_series_data Demo.plain "UNRATE" "2020-01-01"
                                    None Demo.fresh))
            Demo.unrate_frame _).
  vm_compute; reflexivity.
Defined.

(** ** The fields of a parsed request file *)

Lemma rstrip_cons (c : ascii) (s : string) :
  Text.rstrip (String c s)
  = match Text.rstrip s with
    | EmptyString => if Text.is_space c then EmptyString else String c EmptyString
    | r => String c r
    end.
Proof. reflexivity. Qed.

Lemma rstrip_idem (s : string) : Text.rstrip (Text.rstrip s) = Text.rstrip s.
Proof.
  induction s as [|c s IH]; [reflexivity|]; rewrite rstrip_cons.
  destruct (Text.rstrip s) as [|c' r] eqn:Hr.
  - destruct (Text.is_space c) eqn:Hc; [reflexivity|].
    rewrite rstrip_cons; simpl; rewrite Hc; reflexivity.
  - rewrite rstrip_cons, IH; reflexivity.
Qed.

Lemma rstrip_head (c : ascii) (s : string) :
  Text.is_space c = false ->
  exists r, Text.rstrip (String c s) = String c r.
Proof.
  intros Hc; simpl; destruct (Text.rstrip s); [rewrite Hc|]; eauto.
Qed.

Lemma strip_idem (s : string) : Text.strip (Text.strip s) = Text.strip s.
Proof.
  unfold Text.strip.
  assert (H : Text.lstrip (Text.rstrip (Text.lstrip s))
              = Text.rstrip (Text.lstrip s)).
  { induction s as [|c s IH]; [reflexivity|].
    cbn [Text.lstrip]; destruct (Text.is_space c) eqn:Hc; [exact IH|].
    destruct (rstrip_head c s Hc) as (r & ->); simpl; rewrite Hc; reflexivity. }
  rewrite H; apply rstrip_idem.
Qed.

Lemma all_chars_lstrip (p : ascii -> bool) (s : string) :
  Text.all_chars p s = true -> Text.all_chars p (Text.lstrip s) = true.
Proof.
  induction s as [|c s IH]; simpl; auto.
  intros H; destruct (Text.is_space c); [|exact H].
  apply andb_true_iff in H as [_ H]; auto.
Qed.

Lemma all_chars_rstrip (p : ascii -> bool) (s : string) :
  Text.all_chars p s = true -> Text.all_chars p (Text.rstrip s) = true.
Proof.
  induction s as [|c s IH]; simpl; auto.
  intros H; apply andb_true_iff in H as [Hc H]; specialize (IH H).
  destruct (Text.rstrip s).
  - destruct (Text.is_space c); simpl; auto; rewrite Hc; reflexivity.
  - cbn [Text.all_chars] in *; rewrite Hc; exact IH.
Qed.

Lemma field_of_trimmed (pat : Re.pattern) (content : string) :
  Text.strip (field_of pat content) = field_of pat content
  /\ Text.all_chars (Re.group1 pat) (field_of pat content) = true.
Proof.
  unfold field_of; destruct (Re.search pat content) as [g|] eqn:Hs.
  - split; [apply strip_idem|].
    apply search_group in Hs as [_ Hall].
    apply all_chars_rstrip, all_chars_lstrip, Hall.
  - split; reflexivity.
Qed.

(** X6.  Whatever the file holds, the four fields of the returned record
    carry no white space at either end; [name] and [url] hold no line
    feed, and [series_id] and [api_key] hold neither white space nor an
    ampersand.  The [params] member is always the empty dict. *)
Theorem parse_bruno_file_fields (E : env) (file_path : string)
    (s s' : state) (config : Config.t) :
  parse_bruno_file E file_path s = (Ok config, s') ->
  (Text.strip (Config.name config) = Config.name config
   /\ Text.strip (Config.url config) = Config.url config
   /\ Text.strip (Config.series_id config) = Config.series_id config
   /\ Text.strip (Config.api_key config) = Config.api_key config)
  /\ (Text.all_chars Re.dot (Config.name config) = true
      /\ Text.all_chars Re.dot (Config.url config) = true
      /\ Text.all_chars Re.not_amp_space (Config.series_id config) = true
      /\ Text.all_chars Re.not_amp_space (Config.api_key config) = true)
  /\ Config.params config = [].
Proof.
  intros H.
  pose proof (parse_bruno_file_value E file_path s) as Hv.
  rewrite H in Hv; simpl in Hv; injection Hv as ->.
  unfold config_of; destruct (read_text E file_path) as [content|]; simpl.
  - pose proof (field_of_trimmed name_re content) as [H1 H2].
    pose proof (field_of_trimmed url_re content) as [H3 H4].
    pose proof (field_of_trimmed series_id_re content) as [H5 H6].
    pose proof (field_of_trimmed api_key_re content) as [H7 H8].
    repeat split; assumption.
  - repeat split.
Qed.

(** The fields read from the UNRATE request file. *)
Lemma unrate_fields :
  let config :=
    Config.Make "UNRATE data"
      "https://api.stlouisfed.org/fred/series/observations?series_id=UNRATE&api_key=abc123&file_type=json"
      "UNRATE" "abc123" [] in
  (Text.strip (Config.name config) = Config.name config
   /\ Text.strip (Config.url config) = Config.url config
   /\ Text.strip (Config.series_id config) = Config.series_id config
   /\ Text.strip (Config.api_key config) = Config.api_key config)
  /\ (Text.all_chars Re.dot (Config.name config) = true
      /\ Text.all_chars Re.dot (Config.url config) = true
      /\ Text.all_chars Re.not_amp_space (Config.series_id config) = true
      /\ Text.all_chars Re.not_amp_space (Config.api_key config) = true)
  /\ Config.params config = [].
Proof.
  refine (parse_bruno_file_fields Demo.plain "api/Economic Data/unrate.bru"
            Demo.fresh
            (snd (parse_bruno_file Demo.plain "api/Economic Data/unrate.bru"
                                   Demo.fresh)) _ _).
  vm_compute; reflexivity.
Defined.

(** ** File names and series resolution *)

Lemma clean_char_facts (c : ascii) :
  (Text.is_word (clean_char c) || Ascii.eqb (clean_char c) "-")%bool = true
  /\ plain_char (clean_char c) = true
  /\ clean_char (clean_char c) = clean_char c.
Proof.
  destruct c as [[] [] [] [] [] [] [] []]; vm_compute; repeat split.
Qed.

Lemma clean_filename_smap (name : string) :
  clean_filename name = Text.smap clean_char name.
Proof.
  induction name as [|c s IH]; [reflexivity|].
  rewrite clean_filename_cons, IH; reflexivity.
Qed.

(** X7.  The base name made from an indicator name holds word
    characters and hyphens only: no path separator, no full stop and no
    white space, so the saved path stays directly under the data
    directory and the only full stop of the file name is the one before
    the format.  Cleaning a cleaned name changes nothing. *)
Theorem clean_filename_is_safe (indicator_name : string) :
  Text.all_chars (fun c => (Text.is_word c || Ascii.eqb c "-")%bool)
                 (clean_filename indicator_name) = true
  /\ Text.all_chars plain_char (clean_filename indicator_name) = true
  /\ clean_filename (clean_filename indicator_name)
     = clean_filename indicator_name.
Proof.
  rewrite !clean_filename_smap.
  induction indicator_name as [|c s (IH1 & IH2 & IH3)]; [repeat split|].
  destruct (clean_char_facts c) as (H1 & H2 & H3).
  cbn [Text.smap Text.all_chars]; rewrite H1, H2, H3, IH1, IH2, IH3.
  repeat split.
Qed.

(** X8.  The series fetched for an indicator: the table's list whenever
    the name is a key of the table, whatever identifier the request file
    embeds; otherwise the single identifier of the file; and none, so
    that the file is skipped, exactly when the name is unknown and the
    file embeds no identifier.  A list that is returned is never empty and
    holds no empty identifier. *)
Theorem resolve_series_cases (indicator_name : string) (config : Config.t) :
  (resolve_series indicator_name config = None
   <-> get_corrected_series_ids indicator_name = []
       /\ Config.series_id config = "")
  /\ (forall ids, resolve_series indicator_name config = Some ids ->
        ids <> []
        /\ Forall (fun i => i <> "") ids
        /\ (get_corrected_series_ids indicator_name <> [] ->
            ids = get_corrected_series_ids indicator_name)
        /\ (get_corrected_series_ids indicator_name = [] ->
            ids = [Config.series_id config])).
Proof.
  split.
  - unfold resolve_series.
    destruct (get_corrected_series_ids indicator_name).
    + destruct (Config.series_id config); simpl; split;
        try discriminate; auto.
      intros [_ H]; discriminate.
    + split; [discriminate | intros [H _]; discriminate].
  - intros ids H.
    pose proof (resolve_series_truthy _ _ _ H) as Ht.
    assert (Hne : Forall (fun i => i <> "") ids).
    { revert Ht; apply Forall_impl; intros i Hi ->; discriminate. }
    unfold resolve_series in H.
    destruct (get_corrected_series_ids indicator_name) as [|i l].
    + destruct (Text.truthy (Config.series_id config)); [|discriminate].
      injection H as <-; repeat split; auto; try discriminate.
      intros Hx; contradiction.
    + injection H as <-; repeat split; auto; discriminate.
Qed.

(** ** What a run sends, sleeps and learns *)

Lemma key_after_truthy (E : env) (paths : list string) (k : option string) :
  key_truthy k = true -> key_after E paths k = k.
Proof. unfold key_after; intros ->; reflexivity. Qed.

Lemma key_after_cons (E : env) (p : string) (rest : list string)
    (k : option string) :
  key_after E rest (key_after E [p] k) = key_after E (p :: rest) k.
Proof.
  unfold key_after; destruct (key_truthy k) eqn:Hk; [rewrite Hk; reflexivity|].
  destruct (first_token E [p]) as [g|] eqn:Hp.
  - pose proof (first_token_truthy E [p] g Hp) as Hg; simpl; rewrite Hg.
    simpl in Hp |- *.
    destruct (read_text E p) as [content|]; [|discriminate].
    destruct (Re.search api_key_re content); [symmetry; exact Hp | discriminate].
  - rewrite Hk; simpl in Hp |- *.
    destruct (read_text E p) as [content|]; [|reflexivity].
    destruct (Re.search api_key_re content); [discriminate | reflexivity].
Qed.

Section RunEffects.

Variable E : env.
Variables (format start_date : string) (delay : float).

Lemma traffic_same (s s' : state) :
  requests_sent s' = requests_sent s -> sleeps s' = sleeps s ->
  traffic start_date delay s s' [].
Proof. intros Hr Hs; unfold traffic; rewrite Hr, Hs; repeat split; auto. Qed.

Lemma traffic_trans (s s1 s2 : state) (r1 r2 : list Request.t) :
  traffic start_date delay s s1 r1 -> traffic start_date delay s1 s2 r2 ->
  traffic start_date delay s s2 (r2 ++ r1).
Proof.
  intros (Hr1 & Hs1 & Hf1) (Hr2 & Hs2 & Hf2); unfold traffic; repeat split.
  - rewrite Hr2, Hr1, app_assoc; reflexivity.
  - rewrite Hs2, Hs1, length_app, repeat_app, app_assoc; reflexivity.
  - apply Forall_app; auto.
Qed.

Lemma save_data_keeps (data : dataframe) (filename : string) (s : state) :
  let rs := save_data E data filename format s in
  fst rs = Ok tt /\ api_key (snd rs) = api_key s
  /\ requests_sent (snd rs) = requests_sent s /\ sleeps (snd rs) = sleeps s.
Proof.
  cbv zeta; rewrite save_data_run; cbv zeta.
  destruct (supported format);
    [destruct (write_ok E _ _)|]; simpl; repeat split.
Qed.

Lemma fetch_each_effects (series_ids : list string) :
  forall (acc : list dataframe) (s : state) r s',
    fetch_each E series_ids start_date delay acc s = (r, s') ->
    api_key s' = api_key s
    /\ (PrimFloat.leb 0 delay = true ->
        exists reqs, traffic start_date delay s s' reqs
                     /\ List.length reqs = List.length series_ids)
    /\ (PrimFloat.leb 0 delay = false -> series_ids <> [] ->
        r = Raise bad_sleep
        /\ (exists q, requests_sent s' = q :: requests_sent s)
        /\ sleeps s' = sleeps s).
Proof.
  induction series_ids as [|sid ids IH]; intros acc s r s' H.
  - injection H as <- <-; split; [reflexivity|]; split.
    + intros _; exists []; split; [apply traffic_same|]; reflexivity.
    + intros _ Hne; contradiction.
  - cbn [fetch_each] in H; unfold bind at 1 in H.
    pose proof (fetch_series_data_value E sid start_date None s) as Hv.
    pose proof (fetch_series_data_frame E sid start_date None s) as Hf.
    destruct (fetch_series_data E sid start_date None s) as [rf s1].
    cbn [fst snd] in Hv, Hf; subst rf.
    destruct Hf as (Hk & _ & _ & _ & Hsl & _ & Hr & _).
    unfold bind at 1, sleep in H.
    destruct (PrimFloat.leb 0 delay) eqn:Hdelay.
    + unfold modify in H; apply IH in H.
      destruct H as (Hk2 & Htr & _); simpl in Hk2.
      split; [congruence|]; split; [|discriminate].
      intros _; destruct (Htr eq_refl) as (reqs & (Hr2 & Hs2 & Hf2) & Hlen).
      simpl in Hr2, Hs2.
      exists (reqs ++ [request_for E s sid start_date None]); split.
      * unfold traffic; repeat split.
        -- rewrite Hr2, Hr, <- app_assoc; reflexivity.
        -- rewrite Hs2, Hsl, length_app, repeat_app, <- app_assoc.
           reflexivity.
        -- apply Forall_app; split; auto.
      * rewrite length_app, Hlen; simpl; lia.
    + unfold raise in H; injection H as <- <-.
      split; [exact Hk|]; split; [discriminate|].
      intros _ _; repeat split; eauto.
Qed.

Lemma resolve_series_nonempty (indicator_name : string) (config : Config.t)
    (ids : list string) :
  resolve_series indicator_name config = Some ids -> ids <> [].
Proof.
  unfold resolve_series.
  destruct (get_corrected_series_ids indicator_name).
  - destruct (Text.truthy _); [|discriminate].
    intros H; injection H as <-; discriminate.
  - intros H; injection H as <-; discriminate.
Qed.

Lemma process_file_effects (bruno_file : Entry.t)
    (all_data : list (string * dataframe)) (s : state) r s' :
  process_file E bruno_file start_date format delay all_data s = (r, s') ->
  api_key s' = key_after E [Entry.path bruno_file] (api_key s)
  /\ (PrimFloat.leb 0 delay = true ->
      exists reqs, traffic start_date delay s s' reqs)
  /\ (PrimFloat.leb 0 delay = false ->
      saves s' = saves s /\ sleeps s' = sleeps s
      /\ ((r = Ok all_data /\ requests_sent s' = requests_sent s)
          \/ (r = Raise bad_sleep
              /\ exists q, requests_sent s' = q :: requests_sent s))).
Proof.
  intros H.
  unfold process_file, bind at 1, logger at 1, modify in H.
  set (s0 := set_log (Processing _ :: log s) s) in H.
  unfold bind at 1 in H.
  pose proof (parse_bruno_file_value E (Entry.path bruno_file) s0) as Hv.
  pose proof (parse_bruno_file_key E (Entry.path bruno_file) s0) as Hkey.
  pose proof (parse_bruno_file_frame E (Entry.path bruno_file) s0) as Hf.
  destruct (parse_bruno_file E (Entry.path bruno_file) s0) as [rc s1].
  cbn [fst snd] in Hv, Hkey, Hf; subst rc.
  destruct Hf as (_ & _ & Hsa1 & _ & Hr1 & _ & Hsl1).
  change (api_key s0) with (api_key s) in Hkey.
  fold (key_after E [Entry.path bruno_file] (api_key s)) in Hkey.
  change (saves s0) with (saves s) in Hsa1.
  change (requests_sent s0) with (requests_sent s) in Hr1.
  change (sleeps s0) with (sleeps s) in Hsl1.
  assert (T1 : traffic start_date delay s s1 []) by (apply traffic_same; auto).
  fold (indicator_of E bruno_file) in H.
  destruct (resolve_series _ _) as [series_ids|] eqn:Hres.
  - pose proof (resolve_series_truthy _ _ _ Hres) as Htruthy.
    apply resolve_series_nonempty in Hres.
    unfold bind at 1 in H.
    destruct (fetch_each E series_ids start_date delay [] s1) as [rl s2] eqn:Hfe.
    pose proof Hfe as Hsp; apply fetch_each_spec in Hsp; [|exact Htruthy].
    destruct Hsp as (_ & Hsa2 & _).
    apply fetch_each_effects in Hfe; destruct Hfe as (Hk2 & Htr & Hbad).
    destruct (PrimFloat.leb 0 delay) eqn:Hdelay.
    + destruct (Htr eq_refl) as (reqs & T2 & _).
      pose proof (traffic_trans s s1 s2 _ _ T1 T2) as T.
      rewrite app_nil_r in T.
      destruct rl as [l|e];
        [|injection H as <- <-; split; [congruence|]; split;
          [intros _; eauto | discriminate]].
      destruct l as [|d l'].
      * unfold bind, logger, modify, ret in H; injection H as <- <-.
        split; [simpl; congruence|]; split; [|discriminate].
        intros _; exists reqs.
        eapply traffic_trans with (r2 := []) in T;
          [exact T | apply traffic_same; reflexivity].
      * unfold bind at 1 in H.
        pose proof (save_data_keeps (combine_frames (d :: l'))
                      (clean_filename (indicator_of E bruno_file)) s2) as Hsv.
        cbv zeta in Hsv.
        destruct (save_data E _ _ format s2) as [rv s3].
        cbn [fst snd] in Hsv; destruct Hsv as (-> & Hk3 & Hr3 & Hs3).
        unfold ret in H; injection H as <- <-.
        split; [congruence|]; split; [|discriminate].
        intros _; exists reqs.
        eapply traffic_trans with (r2 := []) in T;
          [exact T | apply traffic_same; assumption].
    + destruct (Hbad eq_refl Hres) as (-> & (q & Hq) & Hs2).
      injection H as <- <-.
      split; [congruence|]; split; [discriminate|].
      intros _.
      repeat split; auto; try congruence.
      right; split; auto; exists q; congruence.
  - unfold bind, logger, modify, ret in H; injection H as <- <-.
    split; [exact Hkey|]; split.
    + intros _; exists [].
      eapply traffic_trans with (r2 := []) in T1;
        [exact T1 | apply traffic_same; reflexivity].
    + intros _; unfold saves in *; simpl; repeat split; auto.
Qed.

Lemma key_after_nil (k : option string) : key_after E [] k = k.
Proof. unfold key_after; destruct (key_truthy k); reflexivity. Qed.

Lemma process_files_effects (bruno_files : list Entry.t) :
  forall (all_data : list (string * dataframe)) (s : state) r s',
    process_files E bruno_files start_date format delay all_data s = (r, s') ->
    (key_truthy (api_key s) = true -> api_key s' = api_key s)
    /\ (forall ad, r = Ok ad ->
          api_key s' = key_after E (map Entry.path bruno_files) (api_key s))
    /\ (PrimFloat.leb 0 delay = true ->
        exists reqs, traffic start_date delay s s' reqs)
    /\ (PrimFloat.leb 0 delay = false ->
        saves s' = saves s /\ sleeps s' = sleeps s
        /\ ((r = Ok all_data /\ requests_sent s' = requests_sent s)
            \/ (r = Raise bad_sleep
                /\ exists q, requests_sent s' = q :: requests_sent s))).
Proof.
  induction bruno_files as [|bf rest IH]; intros all_data s r s' H.
  - injection H as <- <-; split; [reflexivity|]; split; [|split].
    + intros ad _; simpl; rewrite key_after_nil; reflexivity.
    + intros _; exists []; apply traffic_same; reflexivity.
    + intros _; repeat split; auto.
  - cbn [process_files] in H; unfold bind at 1 in H.
    destruct (process_file E bf start_date format delay all_data s)
      as [[ad1|e] s1] eqn:Hp;
      apply process_file_effects in Hp; destruct Hp as (Hk1 & Ht1 & Hb1).
    + apply IH in H; destruct H as (Hkt & Hko & Ht2 & Hb2).
      split; [|split; [|split]].
      * intros Hk; rewrite (key_after_truthy E _ _ Hk) in Hk1.
        rewrite Hkt; congruence.
      * intros ad Hq; rewrite (Hko ad Hq), Hk1.
        apply (key_after_cons E (Entry.path bf)).
      * intros Hd; destruct (Ht1 Hd) as (r1 & T1).
        destruct (Ht2 Hd) as (r2 & T2).
        exists (r2 ++ r1); apply (traffic_trans s s1 s'); assumption.
      * intros Hd; destruct (Hb1 Hd) as (Hsa1 & Hsl1 & [[Hq Hr1]|[Hq _]]);
          [|discriminate].
        injection Hq as ->.
        destruct (Hb2 Hd) as (Hsa2 & Hsl2 & Hcases).
        split; [congruence|]; split; [congruence|].
        destruct Hcases as [[-> Hr2]|[-> (q & Hr2)]];
          [left; split; [reflexivity | congruence]
          |right; split; [reflexivity | exists q; congruence]].
    + injection H as <- <-; split; [|split; [|split]].
      * intros Hk; rewrite (key_after_truthy E _ _ Hk) in Hk1; exact Hk1.
      * discriminate.
      * exact Ht1.
      * intros Hd; destruct (Hb1 Hd) as (Hsa1 & Hsl1 & [[Hq _]|Hq]);
          [discriminate|].
        repeat split; auto.
Qed.

Lemma fetch_all_indicators_effects (bruno_dir : string) (s : state) r s' :
  fetch_all_indicators E bruno_dir start_date format delay s = (r, s') ->
  (key_truthy (api_key s) = true -> api_key s' = api_key s)
  /\ (forall ad, r = Ok ad ->
        api_key s'
        = key_after E (match glob_bru E bruno_dir with
                       | Some bruno_files => map Entry.path bruno_files
                       | None => []
                       end) (api_key s))
  /\ (PrimFloat.leb 0 delay = true ->
      exists reqs, traffic start_date delay s s' reqs)
  /\ (PrimFloat.leb 0 delay = false ->
      saves s' = saves s /\ sleeps s' = sleeps s
      /\ ((r = Ok [] /\ requests_sent s' = requests_sent s)
          \/ (r = Raise bad_sleep
              /\ exists q, requests_sent s' = q :: requests_sent s))).
Proof.
  unfold fetch_all_indicators; intros H.
  destruct (glob_bru E bruno_dir) as [bruno_files|].
  - unfold bind at 1, logger at 1, modify in H.
    set (s0 := set_log (FoundFiles _ :: log s) s) in H.
    unfold bind at 1 in H.
    destruct (process_files E bruno_files start_date format delay [] s0)
      as [[all_data|e] s1] eqn:Hp;
      apply process_files_effects in Hp; destruct Hp as (Hkt & Hko & Ht & Hb);
      change (api_key s0) with (api_key s) in Hkt, Hko;
      change (saves s0) with (saves s) in Hb;
      change (sleeps s0) with (sleeps s) in Hb;
      change (requests_sent s0) with (requests_sent s) in Hb.
    + assert (T0 : PrimFloat.leb 0 delay = true ->
                   exists reqs, traffic start_date delay s s1 reqs).
      { intros Hd; destruct (Ht Hd) as (reqs & T); exists reqs.
        exact T. }
      destruct all_data as [|kv all_data'].
      * unfold bind, logger, modify, ret in H; injection H as <- <-.
        split; [exact Hkt|]; split; [|split].
        -- intros ad _; exact (Hko [] eq_refl).
        -- intros Hd; destruct (T0 Hd) as (reqs & T); exists reqs.
           eapply traffic_trans with (r2 := []) in T;
             [exact T | apply traffic_same; reflexivity].
        -- intros Hd; destruct (Hb Hd) as (Hsa & Hsl & [[_ Hr]|[Hq _]]);
             [|discriminate].
           unfold saves in *; simpl; repeat split; auto.
      * unfold bind at 1 in H; unfold bind at 1, logger at 1, modify in H.
        cbn [map] in H.
        set (s2 := set_log (CreatingCombined :: log s1) s1) in H.
        set (master := List.concat _) in H.
        pose proof (save_data_keeps master "all_economic_indicators" s2) as Hsv.
        cbv zeta in Hsv.
        destruct (save_data E master "all_economic_indicators" format s2)
          as [rv s3].
        cbn [fst snd] in Hsv; destruct Hsv as (-> & Hk3 & Hr3 & Hs3).
        unfold bind, logger, modify, ret in H; injection H as <- <-.
        change (api_key s2) with (api_key s1) in Hk3.
        change (requests_sent s2) with (requests_sent s1) in Hr3.
        change (sleeps s2) with (sleeps s1) in Hs3.
        split; [|split; [|split]].
        -- intros Hk; simpl; rewrite Hk3; auto.
        -- intros ad _; simpl; rewrite Hk3; exact (Hko _ eq_refl).
        -- intros Hd; destruct (T0 Hd) as (reqs & T); exists reqs.
           eapply traffic_trans with (r2 := []) in T;
             [exact T | apply traffic_same; simpl; assumption].
        -- intros Hd; destruct (Hb Hd) as (_ & _ & [[Hq _]|[Hq _]]);
             discriminate.
    + injection H as <- <-; split; [exact Hkt|]; split; [discriminate|].
      split; [exact Ht|].
      intros Hd; destruct (Hb Hd) as (Hsa & Hsl & [[Hq _]|Hq]);
        [discriminate|].
      repeat split; auto.
  - unfold bind, logger, modify, ret in H; injection H as <- <-.
    split; [reflexivity|]; split; [|split].
    + intros ad _; simpl; rewrite key_after_nil; reflexivity.
    + intros _; exists []; apply traffic_same; reflexivity.
    + intros _; unfold saves; simpl; repeat split; auto.
Qed.

End RunEffects.

Section RunExtras.

Variable E : env.
Variables (bruno_dir start_date format : string) (delay : float).




(** X12.  A key given at construction is never replaced by a run, be the
    run completed or aborted, whatever tokens the request files hold. *)
Theorem configured_key_survives_run (s s' : state)
    (r : result (list (string * dataframe))) :
  key_truthy (api_key s) = true ->
  fetch_all_indicators E bruno_dir start_date format delay s = (r, s') ->
  api_key s' = api_key s.
Proof.
  intros Hk H.
  destruct (fetch_all_indicators_effects E format start_date delay bruno_dir
              s r s' H) as (Hkt & _); auto.
Qed.

(** X13.  First write wins across the files of a run: when a fetcher
    built without a key completes a run, its key is the token of the
    first request file, in the order of enumeration, that can be read and
    holds a token; and it is still without a key when no file does. *)
Theorem run_learns_first_key (s s' : state)
    (all_data : list (string * dataframe)) (bruno_files : list Entry.t) :
  key_truthy (api_key s) = false ->
  glob_bru E bruno_dir = Some bruno_files ->
  fetch_all_indicators E bruno_dir start_date format delay s
  = (Ok all_data, s') ->
  api_key s' = match first_token E (map Entry.path bruno_files) with
               | Some g => Some g
               | None => api_key s
               end.
Proof.
  intros Hk Hg H.
  destruct (fetch_all_indicators_effects E format start_date delay bruno_dir
              s _ s' H) as (_ & Hko & _).
  rewrite (Hko all_data eq_refl), Hg; unfold key_after; rewrite Hk.
  reflexivity.
Qed.


(** X15.  A request file that cannot be read is processed under its file
    stem; when the stem is no key of the table it is skipped: the mapping
    comes back unchanged and nothing happens but three log lines, the
    notice, the parse error and the warning.  No request is sent and the
    run goes on with the next file. *)
Theorem unreadable_file_is_skipped (bruno_file : Entry.t)
    (all_data : list (string * dataframe)) (s : state) :
  read_text E (Entry.path bruno_file) = None ->
  get_corrected_series_ids (Entry.stem bruno_file) = [] ->
  process_file E bruno_file start_date format delay all_data s
  = (Ok all_data,
     set_log (NoSeriesId (Entry.stem bruno_file)
                :: ParseFailed (Entry.path bruno_file) OSError
                :: Processing (Entry.stem bruno_file ++ ".bru")
                :: log s) s).
Proof.
  intros Hr Hg.
  unfold process_file, bind at 1, logger at 1, modify.
  unfold bind at 1; rewrite parse_bruno_file_run, Hr.
  unfold indicator_name_of, resolve_series; simpl; rewrite Hg; reflexivity.
Qed.

End RunExtras.

Section LogExtras.

Variable E : env.

(** X16.  No fetch fails silently.  A call logs two lines: [Fetching],
    then one line that tells the outcome.  Transport failures (no
    connection, an error status, a body that is not JSON) log
    [FetchFailed]; an answer without observations logs [NoObservations];
    an empty list logs [EmptyDataset]; a rejected date column logs
    [ProcessingFailed]; and a success logs [Fetched] with the number of
    rows returned. *)
Theorem fetch_series_data_logs (series_id start_date : string)
    (end_date : option string) (s : state) :
  log (snd (fetch_series_data E series_id start_date end_date s))
  = outcome_line E series_id
      (http_get E (List.length (requests_sent s))
                (request_for E s series_id start_date end_date))
    :: Fetching series_id :: log s
  /\ (forall df,
        fst (fetch_series_data E series_id start_date end_date s) = Ok (Some df) ->
        outcome_line E series_id
          (http_get E (List.length (requests_sent s))
                    (request_for E s series_id start_date end_date))
        = Fetched (List.length df) series_id).
Proof.
  split.
  - unfold fetch_series_data, outcome_line, request_for, effective_end,
      error_status, bind, try_except, read_clock, gets, logger,
      modify, requests_get, raise_for_status, response_json, pd_to_datetime,
      raise, ret.
    destruct (end_date_given end_date);
      cbn [fst snd api_key data_dir clock_reads requests_sent sleeps
           write_attempts files log set_log set_clock_reads set_requests_sent];
      match goal with
      | |- context [http_get E ?k ?r] => destruct (http_get E k r) as [|status b]
      end; try reflexivity;
      cbn [fst snd is_request_exception];
      destruct ((400 <=? status) && (status <? 600))%bool%Z; try reflexivity;
      destruct b as [| |[|o obs]]; try reflexivity;
      cbn [fst snd is_request_exception];
      destruct (to_datetime E _); try reflexivity;
      unfold stamp; rewrite length_map; reflexivity.
  - intros df H; rewrite fetch_series_data_value in H; injection H as H.
    apply fetch_value_some in H.
    destruct H as (status & obs & dates & -> & Hs & Hobs & Hd & ->).
    unfold outcome_line; rewrite Hs, Hd.
    destruct obs; [contradiction|].
    unfold stamp; rewrite length_map; reflexivity.
Qed.

End LogExtras.

(* ================================================================== *)
(** * The further properties at concrete inputs *)
(* ================================================================== *)






(** A fetcher built with a key keeps it through the example run. *)
Lemma given_key_survives :
  api_key (snd (fetch_all_indicators Demo.plain "api/Economic Data"
                  "2020-01-01" "csv" 0.5%float (init (Some "k1") "data")))
  = Some "k1".
Proof.
  exact (configured_key_survives_run Demo.plain "api/Economic Data"
           "2020-01-01" "csv" 0.5%float (init (Some "k1") "data") _ _
           eq_refl (surjective_pairing _)).
Defined.

(** A fetcher built without a key ends the example run with the key of
    the first request file. *)
Lemma plain_run_key :
  api_key (snd (Demo.run Demo.plain "csv")) = Some "abc123".
Proof.
  refine (run_learns_first_key Demo.plain "api/Economic Data" "2020-01-01"
            "csv" 0.5%float Demo.fresh (snd (Demo.run Demo.plain "csv"))
            Demo.plain_mapping Demo.entries eq_refl eq_refl _).
  vm_compute; reflexivity.
Defined.


(** A request file that is not there, under a stem the table lacks. *)
Lemma missing_file_is_skipped :
  process_file Demo.plain (Entry.Make "api/Economic Data/gone.bru" "gone")
               "2020-01-01" "csv" 0.5%float [] Demo.fresh
  = (Ok [],
     State None "data" 0 [] [] 0 []
           [NoSeriesId "gone";
            ParseFailed "api/Economic Data/gone.bru" OSError;
            Processing "gone.bru"]).
Proof.
  exact (unreadable_file_is_skipped Demo.plain "2020-01-01" "csv" 0.5%float
           (Entry.Make "api/Economic Data/gone.bru" "gone") [] Demo.fresh
           eq_refl eq_refl).
Defined.
